(** * The EVM attempt builder (core/chains/evm/txmgr/attempts.go)

    A shallow embedding of [evmTxAttemptBuilder]: the creation operations
    [NewTxAttempt], [NewTxAttemptWithType], [NewBumpTxAttempt],
    [NewCustomTxAttempt], [NewEmptyTxAttempt], the two construction paths
    [newLegacyAttempt] / [newDynamicFeeAttempt] and the validation rules
    [validateLegacyGas] / [validateDynamicFeeGas].

    Go values are modelled as follows.
    - A pointer ([*assets.Wei], [*big.Int], [*Nonce], [*int64]) is an [option]:
      [None] is [nil].
    - [big.Int] is [Z]; fixed-width integers are [Z] too, numeric conversions
      that can wrap are written out.
    - A slice is a [list]; the nil slice is [[]].
    - An [error] is a value of [goerror], [None] being the nil error.
    - A Go function that can panic or that calls the fee estimator, the
      keystore or the logger is a program of type [Go A]: a tree whose nodes
      are the calls made on those collaborators, in order.  [run] executes
      a program against any implementation of the collaborators. *)

From Stdlib Require Import ZArith List String Bool Lia.
Import ListNotations.

Local Open Scope string_scope.
Local Open Scope list_scope.
Local Open Scope Z_scope.

(** ** Primitive Go types *)

Definition byte := Z.
Definition uint32 := Z.
Definition uint64 := Z.
Definition int64 := Z.
Definition int := Z.

(** [common.Address] is [[20]byte] and [common.Hash] is [[32]byte]; both are
    kept as the number they spell, so the zero value is [0]. *)
Definition Address := Z.
Definition Hash := Z.

(** [uint64(x)] for [x] an [int64] (the [Nonce] type): wraps modulo 2^64. *)
Definition uint64_of_int64 (x : int64) : uint64 := x mod 2 ^ 64.

(** [uint64(x)] for [x] a [uint32]: widening, the value is unchanged. *)
Definition uint64_of_uint32 (x : uint32) : uint64 := x.

(** [*big.Int] and [*assets.Wei] ([assets.Wei] is a named [big.Int]). *)
Definition BigIntPtr := option Z.
Definition WeiPtr := option Z.

(** The [ToInt] method of [assets.Wei]: a pointer cast, [nil] stays [nil]. *)
Definition ToInt (w : WeiPtr) : BigIntPtr := w.

(** [context.Context], [logger.Logger] and [feetypes.Opt] are opaque handles
    here: the builder only passes them on. *)
Definition GoContext := Z.
Definition Logger := Z.
Definition Opt := Z.

(** ** Errors

    [errors.New], [errors.Errorf], [errors.Wrap] and [errors.Wrapf] of
    github.com/pkg/errors.  A formatted error keeps its format string and the
    list of its arguments instead of the rendered text, so that what a message
    names can be read off the value. *)

Inductive fmtarg : Type :=
| ArgInt (z : Z)
| ArgWeiString (w : WeiPtr)
| ArgAddress (a : Address)
| ArgAddressString (a : Address).

Inductive goerror : Type :=
| errors_New (msg : string)
| errors_Errorf (format : string) (args : list fmtarg)
| errors_Wrap (err : goerror) (msg : string)
| errors_Wrapf (err : goerror) (format : string) (args : list fmtarg).

Definition error := option goerror.

(** ** package gas: fee quotes *)

Module EvmFee.
Record t : Type := mk {
  Legacy : WeiPtr;
  DynamicFeeCap : WeiPtr;
  DynamicTipCap : WeiPtr
}.
Definition zero : t := mk None None None.
End EvmFee.

Module DynamicFee.
Record t : Type := mk {
  FeeCap : WeiPtr;
  TipCap : WeiPtr
}.
End DynamicFee.

Module EvmPriorAttempt.
Record t : Type := mk {
  ChainSpecificFeeLimit : uint32;
  BroadcastBeforeBlockNum : option int64;
  TxHash : Hash;
  TxType : int;
  GasPrice : WeiPtr;
  DynamicFee : DynamicFee.t
}.
End EvmPriorAttempt.

(** ** go-ethereum core/types: unsigned and signed transactions *)

Module LegacyTx.
Record t : Type := mk {
  Nonce : uint64;
  To : option Address;
  Value : BigIntPtr;
  Gas : uint64;
  GasPrice : BigIntPtr;
  Data : list byte
}.
End LegacyTx.

Module DynamicFeeTx.
Record t : Type := mk {
  ChainID : BigIntPtr;
  Nonce : uint64;
  GasTipCap : BigIntPtr;
  GasFeeCap : BigIntPtr;
  Gas : uint64;
  To : option Address;
  Value : BigIntPtr;
  Data : list byte
}.
End DynamicFeeTx.

Inductive TxData : Type :=
| LegacyTxData (tx : LegacyTx.t)
| DynamicFeeTxData (tx : DynamicFeeTx.t).

(** [types.Transaction]: the inner data and the signature values V, R, S. *)
Record Transaction : Type := mkTransaction {
  inner : TxData;
  signature : Z * Z * Z
}.

(** [types.NewTx]: an unsigned transaction around a copy of the data. *)
Definition NewTx (d : TxData) : Transaction := mkTransaction d (0, 0, 0).

(** [types.NewTransaction]: the legacy constructor of go-ethereum. *)
Definition NewTransaction (nonce : uint64) (to : Address) (amount : BigIntPtr)
  (gasLimit : uint64) (gasPrice : BigIntPtr) (data : list byte) : Transaction :=
  NewTx (LegacyTxData (LegacyTx.mk nonce (Some to) amount gasLimit gasPrice data)).

(** ** common/txmgr/types: intents and attempts

    Only the fields attempts.go reads or writes are kept. *)

Definition TxAttemptState := Z.

Module Tx.
Record t : Type := mk {
  ID : int64;
  Sequence : option int64;
  FromAddress : Address;
  ToAddress : Address;
  EncodedPayload : list byte;
  Value : Z;
  FeeLimit : uint32
}.
Definition zero : t := mk 0 None 0 0 [] 0 0.
End Tx.

Module TxAttempt.
Record t : Type := mk {
  ID : int64;
  TxID : int64;
  Tx : Tx.t;
  TxFee : EvmFee.t;
  ChainSpecificFeeLimit : uint32;
  SignedRawTx : list byte;
  Hash : Hash;
  BroadcastBeforeBlockNum : option int64;
  State : TxAttemptState;
  TxType : int
}.
(** The zero value of the struct: what a named result [attempt] holds until
    it is assigned. *)
Definition zero : t := mk 0 0 Tx.zero EvmFee.zero 0 [] 0 None 0 0.

Definition with_State (v : TxAttemptState) (a : t) : t :=
  mk (ID a) (TxID a) (Tx a) (TxFee a) (ChainSpecificFeeLimit a) (SignedRawTx a)
     (Hash a) (BroadcastBeforeBlockNum a) v (TxType a).
Definition with_SignedRawTx (v : list byte) (a : t) : t :=
  mk (ID a) (TxID a) (Tx a) (TxFee a) (ChainSpecificFeeLimit a) v
     (Hash a) (BroadcastBeforeBlockNum a) (State a) (TxType a).
Definition with_TxID (v : int64) (a : t) : t :=
  mk (ID a) v (Tx a) (TxFee a) (ChainSpecificFeeLimit a) (SignedRawTx a)
     (Hash a) (BroadcastBeforeBlockNum a) (State a) (TxType a).
Definition with_TxFee (v : EvmFee.t) (a : t) : t :=
  mk (ID a) (TxID a) (Tx a) v (ChainSpecificFeeLimit a) (SignedRawTx a)
     (Hash a) (BroadcastBeforeBlockNum a) (State a) (TxType a).
Definition with_Hash (v : Z) (a : t) : t :=
  mk (ID a) (TxID a) (Tx a) (TxFee a) (ChainSpecificFeeLimit a) (SignedRawTx a)
     v (BroadcastBeforeBlockNum a) (State a) (TxType a).
Definition with_TxType (v : int) (a : t) : t :=
  mk (ID a) (TxID a) (Tx a) (TxFee a) (ChainSpecificFeeLimit a) (SignedRawTx a)
     (Hash a) (BroadcastBeforeBlockNum a) (State a) v.
Definition with_ChainSpecificFeeLimit (v : uint32) (a : t) : t :=
  mk (ID a) (TxID a) (Tx a) (TxFee a) v (SignedRawTx a)
     (Hash a) (BroadcastBeforeBlockNum a) (State a) (TxType a).
Definition with_Tx (v : Tx.t) (a : t) : t :=
  mk (ID a) (TxID a) v (TxFee a) (ChainSpecificFeeLimit a) (SignedRawTx a)
     (Hash a) (BroadcastBeforeBlockNum a) (State a) (TxType a).
End TxAttempt.

(** ** What attempts.go imports and src/ does not contain

    [TxAttemptInProgress] is a constant of common/txmgr/types,
    [ValidDynamic] a method of [gas.EvmFee], [EncodeRLP] and
    [TransactionHash] methods of go-ethereum's [types.Transaction].  They are
    parameters of the development: every theorem holds for each choice.
    [EncodeRLP] gives the bytes written to the buffer and the error. *)
Class Imports : Type := {
  TxAttemptInProgress : TxAttemptState;
  ValidDynamic : EvmFee.t -> bool;
  EncodeRLP : Transaction -> list byte * error;
  TransactionHash : Transaction -> Hash
}.

(** ** Calls on the collaborators and programs making them *)

(** The calls attempts.go makes on the estimator ([gas.EvmFeeEstimator]), on
    the keystore ([TxAttemptSigner]) and on the logger. *)
Inductive call : Type :=
| GetFee (ctx : GoContext) (calldata : list byte) (feeLimit : uint32)
    (maxFeePrice : WeiPtr) (opts : list Opt)
| BumpFee (ctx : GoContext) (originalFee : EvmFee.t) (feeLimit : uint32)
    (maxFeePrice : WeiPtr) (attempts : list EvmPriorAttempt.t)
| KeystoreSignTx (fromAddress : Address) (tx : Transaction) (chainID : BigIntPtr)
| AssumptionViolation (lggr : Logger) (msg : goerror).

(** What each call returns: the Go result tuple. *)
Definition reply (c : call) : Type :=
  match c with
  | GetFee _ _ _ _ _ => (EvmFee.t * uint32 * error)%type
  | BumpFee _ _ _ _ _ => (EvmFee.t * uint32 * error)%type
  | KeystoreSignTx _ _ _ => (option Transaction * error)%type
  | AssumptionViolation _ _ => unit
  end.

Inductive Go (A : Type) : Type :=
| Return (a : A)
| Panic (msg : string)
| Perform (c : call) (k : reply c -> Go A).

Arguments Return {A} a.
Arguments Panic {A} msg.
Arguments Perform {A} c k.

Fixpoint bind {A B : Type} (p : Go A) (f : A -> Go B) : Go B :=
  match p with
  | Return a => f a
  | Panic msg => Panic msg
  | Perform c k => Perform c (fun r => bind (k r) f)
  end.

Notation "x <- p ;; q" := (bind p (fun x => q))
  (at level 61, p at next level, right associativity).
Notation "' pat <- p ;; q" := (bind p (fun x => match x with pat => q end))
  (at level 61, pat pattern, p at next level, right associativity).

(** A call as a program: make it and return its reply. *)
Definition perform (c : call) : Go (reply c) := Perform c (fun r => Return r).

(** What a program ends with. *)
Inductive result (A : Type) : Type :=
| Returned (a : A)
| Panicked (msg : string).

Arguments Returned {A} a.
Arguments Panicked {A} msg.

Section Run.

(** The collaborators: any state [World] and any function [answer] giving,
    for a call made in a state, the reply and the next state. *)
Variable World : Type.
Variable answer : forall c : call, World -> reply c * World.

(** Runs a program: its result, the final state and the calls made. *)
Fixpoint run {A : Type} (p : Go A) (w : World) : result A * World * list call :=
  match p with
  | Return a => (Returned a, w, [])
  | Panic msg => (Panicked msg, w, [])
  | Perform c k =>
      let '(r, w1) := answer c w in
      let '(o, w2, t) := run (k r) w1 in
      (o, w2, c :: t)
  end.

Definition outcome {A : Type} (p : Go A) (w : World) : result A :=
  fst (fst (run p w)).

Definition calls {A : Type} (p : Go A) (w : World) : list call :=
  snd (run p w).

End Run.

Arguments run {World} answer {A} p w.
Arguments outcome {World} answer {A} p w.
Arguments calls {World} answer {A} p w.

(** ** package assets: comparing prices *)

(** The message of Go's runtime error for a nil pointer dereference. *)
Definition nil_dereference : string :=
  "runtime error: invalid memory address or nil pointer dereference".

(** [*p] for a pointer [p]. *)
Definition deref {A : Type} (p : option A) : Go A :=
  match p with
  | Some v => Return v
  | None => Panic nil_dereference
  end.

(** The [Cmp] method of math/big's [Int]: -1, 0 or +1; both operands are read, so a
    nil operand panics. *)
Definition big_Cmp (x y : BigIntPtr) : Go int :=
  a <- deref x ;;
  b <- deref y ;;
  Return (match a ?= b with Lt => -1 | Eq => 0 | Gt => 1 end).

(** Modelled from the spec: the comparison method [Cmp] of [assets.Wei], whose
    package is not in src/.  A Price is "compared by total order"; the method
    is the comparison of the two underlying integers. *)
Definition Cmp (w y : WeiPtr) : Go int := big_Cmp (ToInt w) (ToInt y).

(** ** The builder and its configuration *)

Module keySpecificEstimator.
Record t : Type := mk {
  PriceMaxKey : Address -> WeiPtr
}.
End keySpecificEstimator.

(** The fee configuration is read-only: its getters are functions. *)
Module evmTxAttemptBuilderFeeConfig.
Record t : Type := mk {
  EIP1559DynamicFees : bool;
  TipCapMin : WeiPtr;
  PriceMin : WeiPtr;
  PriceMaxKey : Address -> WeiPtr
}.
(** A fee configuration has the method of [keySpecificEstimator], so Go
    accepts it where that interface is expected. *)
Definition as_keySpecificEstimator (cfg : t) : keySpecificEstimator.t :=
  keySpecificEstimator.mk (PriceMaxKey cfg).
End evmTxAttemptBuilderFeeConfig.

Import evmTxAttemptBuilderFeeConfig.

(** The struct [evmTxAttemptBuilder]: its [keystore] and [EvmFeeEstimator]
    fields are the collaborators reached through [Perform]. *)
Record evmTxAttemptBuilder : Type := mkBuilder {
  chainID : Z;
  feeConfig : evmTxAttemptBuilderFeeConfig.t
}.

Definition Max256BitUInt : BigIntPtr := Some (2 ^ 256).

(** ** Validation rules *)

Definition validateLegacyGas (kse : keySpecificEstimator.t)
  (minGasPriceWei gasPrice : WeiPtr) (gasLimit : uint32) (etx : Tx.t) : Go error :=
  match gasPrice with
  | None => Panic "gas price missing"
  | Some _ =>
    let max := keySpecificEstimator.PriceMaxKey kse (Tx.FromAddress etx) in
    c <- Cmp gasPrice max ;;
    if c >? 0 then
      Return (Some (errors_Errorf
        "cannot create tx attempt: specified gas price of %s would exceed max configured gas price of %s for key %s"
        [ArgWeiString gasPrice; ArgWeiString max; ArgAddressString (Tx.FromAddress etx)]))
    else
      let min := minGasPriceWei in
      c <- Cmp gasPrice min ;;
      if c <? 0 then
        Return (Some (errors_Errorf
          "cannot create tx attempt: specified gas price of %s is below min configured gas price of %s for key %s"
          [ArgWeiString gasPrice; ArgWeiString min; ArgAddressString (Tx.FromAddress etx)]))
      else Return None
  end.

Definition validateDynamicFeeGas (kse : keySpecificEstimator.t)
  (tipCapMinimum : WeiPtr) (fee : DynamicFee.t) (gasLimit : uint32) (etx : Tx.t)
  : Go error :=
  let gasTipCap := DynamicFee.TipCap fee in
  let gasFeeCap := DynamicFee.FeeCap fee in
  match gasTipCap with
  | None => Panic "gas tip cap missing"
  | Some _ =>
  match gasFeeCap with
  | None => Panic "gas fee cap missing"
  | Some _ =>
    c <- big_Cmp (ToInt gasFeeCap) Max256BitUInt ;;
    if c >? 0 then Return (Some (errors_New "impossibly large fee cap")) else
    c <- big_Cmp (ToInt gasTipCap) Max256BitUInt ;;
    if c >? 0 then Return (Some (errors_New "impossibly large tip cap")) else
    c <- Cmp gasFeeCap gasTipCap ;;
    if c <? 0 then
      Return (Some (errors_Errorf
        "gas fee cap must be greater than or equal to gas tip cap (fee cap: %s, tip cap: %s)"
        [ArgWeiString gasFeeCap; ArgWeiString gasTipCap]))
    else
    let max := keySpecificEstimator.PriceMaxKey kse (Tx.FromAddress etx) in
    c <- Cmp gasFeeCap max ;;
    if c >? 0 then
      Return (Some (errors_Errorf
        "cannot create tx attempt: specified gas fee cap of %s would exceed max configured gas price of %s for key %s"
        [ArgWeiString gasFeeCap; ArgWeiString max; ArgAddressString (Tx.FromAddress etx)]))
    else
    let minTip := tipCapMinimum in
    c <- Cmp gasTipCap minTip ;;
    if c <? 0 then
      Return (Some (errors_Errorf
        "cannot create tx attempt: specified gas tip cap of %s is below min configured gas tip of %s for key %s"
        [ArgWeiString gasTipCap; ArgWeiString minTip; ArgAddressString (Tx.FromAddress etx)]))
    else Return None
  end
  end.

(** ** Unsigned transactions *)

Definition newDynamicFeeTransaction (nonce : uint64) (to : Address)
  (value : BigIntPtr) (gasLimit : uint32) (chainID : BigIntPtr)
  (gasTipCap gasFeeCap : WeiPtr) (data : list byte) : DynamicFeeTx.t :=
  {| DynamicFeeTx.ChainID := chainID;
     DynamicFeeTx.Nonce := nonce;
     DynamicFeeTx.GasTipCap := ToInt gasTipCap;
     DynamicFeeTx.GasFeeCap := ToInt gasFeeCap;
     DynamicFeeTx.Gas := uint64_of_uint32 gasLimit;
     DynamicFeeTx.To := Some to;
     DynamicFeeTx.Value := value;
     DynamicFeeTx.Data := data |}.

Definition newLegacyTransaction (nonce : uint64) (to : Address)
  (value : BigIntPtr) (gasLimit : uint32) (gasPrice : WeiPtr) (data : list byte)
  : LegacyTx.t :=
  {| LegacyTx.Nonce := nonce;
     LegacyTx.To := Some to;
     LegacyTx.Value := value;
     LegacyTx.Gas := uint64_of_uint32 gasLimit;
     LegacyTx.GasPrice := ToInt gasPrice;
     LegacyTx.Data := data |}.

(** ** Prior attempts handed to the estimator *)

(** The struct literal built in the body of the loop of [newEvmPriorAttempts]
    from the element [attempts[i]]. *)
Definition priorAttempt (a : TxAttempt.t) : EvmPriorAttempt.t :=
  {| EvmPriorAttempt.ChainSpecificFeeLimit := TxAttempt.ChainSpecificFeeLimit a;
     EvmPriorAttempt.BroadcastBeforeBlockNum := TxAttempt.BroadcastBeforeBlockNum a;
     EvmPriorAttempt.TxHash := TxAttempt.Hash a;
     EvmPriorAttempt.TxType := TxAttempt.TxType a;
     EvmPriorAttempt.GasPrice := EvmFee.Legacy (TxAttempt.TxFee a);
     EvmPriorAttempt.DynamicFee :=
       {| DynamicFee.FeeCap := EvmFee.DynamicFeeCap (TxAttempt.TxFee a);
          DynamicFee.TipCap := EvmFee.DynamicTipCap (TxAttempt.TxFee a) |} |}.

(** The loop [for i := range attempts] visits the elements in order and
    appends one entry per element to [prior], which starts as nil. *)
Definition newEvmPriorAttempts (attempts : list TxAttempt.t)
  : list EvmPriorAttempt.t :=
  fold_left (fun prior a => prior ++ [priorAttempt a]) attempts [].

Section Builder.

Context {imports : Imports}.

(** ** Signing adapter *)

Definition SignTx (c : evmTxAttemptBuilder) (address : Address) (tx : Transaction)
  : Go (Hash * list byte * error) :=
  '(signedTx, err) <- perform (KeystoreSignTx address tx (Some (chainID c))) ;;
  match err with
  | Some e => Return (0, [], Some (errors_Wrap e "SignTx failed"))
  | None =>
    signedTx <- deref signedTx ;;
    let '(rlp, err) := EncodeRLP signedTx in
    match err with
    | Some e => Return (0, [], Some (errors_Wrap e "SignTx failed"))
    | None =>
      let txHash := TransactionHash signedTx in
      Return (txHash, rlp, None)
    end
  end.

Definition newSignedAttempt (c : evmTxAttemptBuilder) (etx : Tx.t) (tx : Transaction)
  : Go (TxAttempt.t * error) :=
  let attempt := TxAttempt.zero in
  '(hash, signedTxBytes, err) <- SignTx c (Tx.FromAddress etx) tx ;;
  match err with
  | Some e =>
    Return (attempt, Some (errors_Wrapf e
      "error using account %s to sign transaction %v"
      [ArgAddressString (Tx.FromAddress etx); ArgInt (Tx.ID etx)]))
  | None =>
    let attempt := TxAttempt.with_State TxAttemptInProgress attempt in
    let attempt := TxAttempt.with_SignedRawTx signedTxBytes attempt in
    let attempt := TxAttempt.with_TxID (Tx.ID etx) attempt in
    let attempt := TxAttempt.with_Tx etx attempt in
    let attempt := TxAttempt.with_Hash hash attempt in
    Return (attempt, None)
  end.

(** ** The two construction paths *)

Definition newLegacyAttempt (c : evmTxAttemptBuilder) (etx : Tx.t)
  (gasPrice : WeiPtr) (gasLimit : uint32) : Go (TxAttempt.t * error) :=
  let attempt := TxAttempt.zero in
  err <- validateLegacyGas (as_keySpecificEstimator (feeConfig c))
           (PriceMin (feeConfig c)) gasPrice gasLimit etx ;;
  match err with
  | Some e => Return (attempt, Some (errors_Wrap e "error validating gas"))
  | None =>
    sequence <- deref (Tx.Sequence etx) ;;
    let tx := newLegacyTransaction (uint64_of_int64 sequence) (Tx.ToAddress etx)
                (Some (Tx.Value etx)) gasLimit gasPrice (Tx.EncodedPayload etx) in
    let transaction := NewTx (LegacyTxData tx) in
    '(hash, signedTxBytes, err) <- SignTx c (Tx.FromAddress etx) transaction ;;
    match err with
    | Some e =>
      Return (attempt, Some (errors_Wrapf e
        "error using account %s to sign transaction %v"
        [ArgAddress (Tx.FromAddress etx); ArgInt (Tx.ID etx)]))
    | None =>
      let attempt := TxAttempt.with_State TxAttemptInProgress attempt in
      let attempt := TxAttempt.with_SignedRawTx signedTxBytes attempt in
      let attempt := TxAttempt.with_TxID (Tx.ID etx) attempt in
      let attempt := TxAttempt.with_TxFee (EvmFee.mk gasPrice None None) attempt in
      let attempt := TxAttempt.with_Hash hash attempt in
      let attempt := TxAttempt.with_TxType 0 attempt in
      let attempt := TxAttempt.with_ChainSpecificFeeLimit gasLimit attempt in
      let attempt := TxAttempt.with_Tx etx attempt in
      Return (attempt, None)
    end
  end.

Definition newDynamicFeeAttempt (c : evmTxAttemptBuilder) (etx : Tx.t)
  (fee : DynamicFee.t) (gasLimit : uint32) : Go (TxAttempt.t * error) :=
  let attempt := TxAttempt.zero in
  err <- validateDynamicFeeGas (as_keySpecificEstimator (feeConfig c))
           (TipCapMin (feeConfig c)) fee gasLimit etx ;;
  match err with
  | Some e => Return (attempt, Some (errors_Wrap e "error validating gas"))
  | None =>
    sequence <- deref (Tx.Sequence etx) ;;
    let d := newDynamicFeeTransaction (uint64_of_int64 sequence) (Tx.ToAddress etx)
               (Some (Tx.Value etx)) gasLimit (Some (chainID c))
               (DynamicFee.TipCap fee) (DynamicFee.FeeCap fee)
               (Tx.EncodedPayload etx) in
    let tx := NewTx (DynamicFeeTxData d) in
    '(attempt, err) <- newSignedAttempt c etx tx ;;
    match err with
    | Some e => Return (attempt, Some e)
    | None =>
      let attempt := TxAttempt.with_TxFee
        (EvmFee.mk None (DynamicFee.FeeCap fee) (DynamicFee.TipCap fee)) attempt in
      let attempt := TxAttempt.with_ChainSpecificFeeLimit gasLimit attempt in
      let attempt := TxAttempt.with_TxType 2 attempt in
      Return (attempt, None)
    end
  end.

(** ** The creation operations *)

Definition type_mismatch_legacy : string :=
  "Attempt %v is a type 0 transaction but estimator did not return legacy fee bump".

Definition type_mismatch_dynamic : string :=
  "Attempt %v is a type 2 transaction but estimator did not return dynamic fee bump".

Definition unrecognised_type : string :=
  "invariant violation: Attempt %v had unrecognised transaction type %vThis is a bug! Please report to https://github.com/smartcontractkit/chainlink/issues".

Definition NewCustomTxAttempt (c : evmTxAttemptBuilder) (etx : Tx.t)
  (fee : EvmFee.t) (gasLimit : uint32) (txType : int) (lggr : Logger)
  : Go (TxAttempt.t * bool * error) :=
  let attempt := TxAttempt.zero in
  if txType =? 0 then
    match EvmFee.Legacy fee with
    | None =>
      let err := errors_Errorf type_mismatch_legacy [ArgInt (TxAttempt.ID attempt)] in
      _ <- perform (AssumptionViolation lggr err) ;;
      Return (attempt, false, Some err)
    | Some _ =>
      '(attempt, err) <- newLegacyAttempt c etx (EvmFee.Legacy fee) gasLimit ;;
      Return (attempt, true, err)
    end
  else if txType =? 2 then
    if negb (ValidDynamic fee) then
      let err := errors_Errorf type_mismatch_dynamic [ArgInt (TxAttempt.ID attempt)] in
      _ <- perform (AssumptionViolation lggr err) ;;
      Return (attempt, false, Some err)
    else
      '(attempt, err) <- newDynamicFeeAttempt c etx
        {| DynamicFee.FeeCap := EvmFee.DynamicFeeCap fee;
           DynamicFee.TipCap := EvmFee.DynamicTipCap fee |} gasLimit ;;
      Return (attempt, true, err)
  else
    let err := errors_Errorf unrecognised_type
      [ArgInt (TxAttempt.ID attempt); ArgInt (TxAttempt.TxType attempt)] in
    _ <- perform (AssumptionViolation lggr err) ;;
    Return (attempt, false, Some err).

Definition NewTxAttemptWithType (c : evmTxAttemptBuilder) (ctx : GoContext)
  (etx : Tx.t) (lggr : Logger) (txType : int) (opts : list Opt)
  : Go (TxAttempt.t * EvmFee.t * uint32 * bool * error) :=
  let attempt := TxAttempt.zero in
  let keySpecificMaxGasPriceWei := PriceMaxKey (feeConfig c) (Tx.FromAddress etx) in
  '(fee, feeLimit, err) <- perform (GetFee ctx (Tx.EncodedPayload etx)
                              (Tx.FeeLimit etx) keySpecificMaxGasPriceWei opts) ;;
  match err with
  | Some e =>
    Return (attempt, fee, feeLimit, true, Some (errors_Wrap e "failed to get fee"))
  | None =>
    '(attempt, retryable, err) <- NewCustomTxAttempt c etx fee feeLimit txType lggr ;;
    Return (attempt, fee, feeLimit, retryable, err)
  end.

Definition NewTxAttempt (c : evmTxAttemptBuilder) (ctx : GoContext) (etx : Tx.t)
  (lggr : Logger) (opts : list Opt)
  : Go (TxAttempt.t * EvmFee.t * uint32 * bool * error) :=
  let txType := 0 in
  let txType := if EIP1559DynamicFees (feeConfig c) then 2 else txType in
  NewTxAttemptWithType c ctx etx lggr txType opts.

Definition NewBumpTxAttempt (c : evmTxAttemptBuilder) (ctx : GoContext)
  (etx : Tx.t) (previousAttempt : TxAttempt.t) (priorAttempts : list TxAttempt.t)
  (lggr : Logger) : Go (TxAttempt.t * EvmFee.t * uint32 * bool * error) :=
  let attempt := TxAttempt.zero in
  let keySpecificMaxGasPriceWei := PriceMaxKey (feeConfig c) (Tx.FromAddress etx) in
  '(bumpedFee, bumpedFeeLimit, err) <-
     perform (BumpFee ctx (TxAttempt.TxFee previousAttempt) (Tx.FeeLimit etx)
                keySpecificMaxGasPriceWei (newEvmPriorAttempts priorAttempts)) ;;
  match err with
  | Some e =>
    Return (attempt, bumpedFee, bumpedFeeLimit, true,
            Some (errors_Wrap e "failed to bump fee"))
  | None =>
    '(attempt, retryable, err) <-
       NewCustomTxAttempt c etx bumpedFee bumpedFeeLimit
         (TxAttempt.TxType previousAttempt) lggr ;;
    Return (attempt, bumpedFee, bumpedFeeLimit, retryable, err)
  end.

Definition NewEmptyTxAttempt (c : evmTxAttemptBuilder) (nonce : int64)
  (feeLimit : uint32) (fee : EvmFee.t) (fromAddress : Address)
  : Go (TxAttempt.t * error) :=
  let attempt := TxAttempt.zero in
  let value : BigIntPtr := Some 0 in
  let payload : list byte := [] in
  match EvmFee.Legacy fee with
  | None =>
    Return (attempt, Some (errors_New "NewEmptyTranscation: legacy fee cannot be nil"))
  | Some _ =>
    let tx := NewTransaction (uint64_of_int64 nonce) fromAddress value
                (uint64_of_uint32 feeLimit) (ToInt (EvmFee.Legacy fee)) payload in
    '(hash, signedTxBytes, err) <- SignTx c fromAddress tx ;;
    match err with
    | Some e =>
      Return (attempt, Some (errors_Wrapf e
        "error using account %s to sign empty transaction"
        [ArgAddressString fromAddress]))
    | None =>
      let attempt := TxAttempt.with_SignedRawTx signedTxBytes attempt in
      let attempt := TxAttempt.with_Hash hash attempt in
      Return (attempt, None)
    end
  end.

End Builder.

(** ** Which collaborator a call goes to *)

Definition is_estimator_call (c : call) : bool :=
  match c with
  | GetFee _ _ _ _ _ | BumpFee _ _ _ _ _ => true
  | _ => false
  end.

Definition is_keystore_call (c : call) : bool :=
  match c with
  | KeystoreSignTx _ _ _ => true
  | _ => false
  end.

(** Every call a program can reach satisfies [P], whatever the replies. *)
Fixpoint only_calls {A : Type} (P : call -> Prop) (p : Go A) : Prop :=
  match p with
  | Return _ => True
  | Panic _ => True
  | Perform c k => P c /\ forall r, only_calls P (k r)
  end.

(** The five results of [NewTxAttemptWithType] and [NewBumpTxAttempt] from
    the three of [NewCustomTxAttempt]: the fee and the limit the estimator
    returned are put between the attempt and the flag. *)
Definition with_quote (fee : EvmFee.t) (feeLimit : uint32)
  (o : result (TxAttempt.t * bool * error))
  : result (TxAttempt.t * EvmFee.t * uint32 * bool * error) :=
  match o with
  | Returned (attempt, retryable, err) =>
      Returned (attempt, fee, feeLimit, retryable, err)
  | Panicked msg => Panicked msg
  end.

(** ** The Mercury plugin configuration (package config, the second
    document of attempts.go) *)

Module mercury.

Record PluginConfig : Type := mkPluginConfig {
  RawServerURL : string;
  ServerPubKey : list byte
}.

(** [url.URL] of net/url: only its scheme is read. *)
Record URL : Type := mkURL {
  Scheme : string
}.

(** The errors this package builds: [errors.New] and [errors.Join] of the
    standard library, [Wrap] and [Errorf] of github.com/pkg/errors.  The
    arguments of [Errorf] are strings here (both are printed with %q). *)
#[warnings="-register-all"]
Inductive cerror : Type :=
| std_New (msg : string)
| pkgerrors_Wrap (err : goerror) (msg : string)
| pkgerrors_Errorf (format : string) (args : list string)
| joinError (errs : list cerror).

(** [errors.Join]: nil when every argument is nil, otherwise an error
    holding the non-nil arguments in order. *)
Definition errors_Join (errs : list (option cerror)) : option cerror :=
  match flat_map (fun e => match e with Some x => [x] | None => [] end) errs with
  | [] => None
  | es => Some (joinError es)
  end.

(** The character classes [[a-zA-Z]] and [[a-zA-Z0-9+.-]]. *)
Definition is_letter (c : Ascii.ascii) : bool :=
  let n := Ascii.nat_of_ascii c in
  ((65 <=? n) && (n <=? 90) || (97 <=? n) && (n <=? 122))%nat.

Definition is_scheme_char (c : Ascii.ascii) : bool :=
  let n := Ascii.nat_of_ascii c in
  (is_letter c || (48 <=? n) && (n <=? 57)
   || (n =? 43) || (n =? 46) || (n =? 45))%nat.

(** What is left of a string after its longest prefix of scheme characters:
    where the starred class of the expression stops, since the colon that
    must follow is not in the class. *)
Fixpoint skip_scheme_chars (s : string) : string :=
  match s with
  | String c r => if is_scheme_char c then skip_scheme_chars r else s
  | EmptyString => s
  end.

(** Every character of [s] is a scheme character. *)
Fixpoint all_scheme_chars (s : string) : bool :=
  match s with
  | String c r => is_scheme_char c && all_scheme_chars r
  | EmptyString => true
  end.

(** [s] without the prefix [p], when it has that prefix. *)
Fixpoint strip_prefix (p s : string) : option string :=
  match p with
  | EmptyString => Some s
  | String a p' =>
      match s with
      | String b s' => if Ascii.eqb a b then strip_prefix p' s' else None
      | EmptyString => None
      end
  end.

(** [schemeRegexp.MatchString] for the expression
    [^[a-zA-Z][a-zA-Z0-9+.-]*://]: anchored at the start of the text, a
    letter, scheme characters, then a colon and two slashes. *)
Definition schemeRegexp_MatchString (s : string) : bool :=
  match s with
  | String c r =>
      is_letter c &&
      match strip_prefix "://" (skip_scheme_chars r) with
      | Some _ => true
      | None => false
      end
  | EmptyString => false
  end.

(** [wssRegexp.ReplaceAllString(s, <empty>)] for the expression [^wss://]:
    the anchor lets it match at the start of the text only, so one leading
    occurrence is removed. *)
Definition wssRegexp_remove (s : string) : string :=
  match strip_prefix "wss://" s with
  | Some r => r
  | None => s
  end.

(** The value of the local variable [normalizedURI] of [Validate]. *)
Definition normalizedURI (raw : string) : string :=
  if schemeRegexp_MatchString raw then raw else String.append "wss://" raw.

Definition dquote : string := String (Ascii.ascii_of_nat 34) EmptyString.

Definition invalid_scheme_format : string :=
  String.append
    "Mercury: invalid scheme specified for MercuryServer, got: %q (scheme: %q) but expected a websocket url e.g. "
    (String.append dquote (String.append "192.0.2.2:4242"
       (String.append dquote (String.append " or "
          (String.append dquote (String.append "wss://192.0.2.2:4242" dquote)))))).

Definition missing_url : cerror := std_New "mercury: ServerURL must be specified".

Definition bad_key : cerror :=
  std_New "mercury: ServerPubKey is required and must be a 32-byte hex string".

Section Validate.

(** [url.ParseRequestURI] of net/url is outside src/: the parser is a
    parameter, returning the URL and the error. *)
Variable ParseRequestURI : string -> option URL * error.

Definition Validate (p : PluginConfig) : Go (option cerror) :=
  merr <-
    (if String.eqb (RawServerURL p) "" then Return (Some missing_url)
     else
       let '(uri, err) := ParseRequestURI (normalizedURI (RawServerURL p)) in
       match err with
       | Some e =>
           Return (Some (pkgerrors_Wrap e "Mercury: invalid value for ServerURL"))
       | None =>
           uri <- deref uri ;;
           if negb (String.eqb (Scheme uri) "wss") then
             Return (Some (pkgerrors_Errorf invalid_scheme_format
                             [RawServerURL p; Scheme uri]))
           else Return None
       end) ;;
  if negb (Nat.eqb (List.length (ServerPubKey p)) 32) then
    Return (errors_Join [merr; Some bad_key])
  else Return merr.

End Validate.

Definition ServerURL (p : PluginConfig) : string :=
  wssRegexp_remove (RawServerURL p).

(** A parser for the examples: it splits at the first [://] and fails
    without one. *)
Fixpoint scheme_of (s : string) : option string :=
  match strip_prefix "://" s with
  | Some _ => Some EmptyString
  | None =>
      match s with
      | String c r => option_map (String c) (scheme_of r)
      | EmptyString => None
      end
  end.

Definition sample_parser (s : string) : option URL * error :=
  match scheme_of s with
  | Some scheme => (Some (mkURL scheme), None)
  | None => (None, Some (errors_New "invalid URI for request"))
  end.

Definition sample_key : list byte := repeat 7 32.

End mercury.

(** ** A concrete setting

    The end-to-end example of the specification: floor 1, ceiling 1000, an
    intent with sequence 5 sent to 0xAA with value 0 and fee limit 21000, a
    keystore that signs, and an estimator that quotes the legacy price 100
    and bumps a legacy price by 10. *)

Module Sample.

#[local] Instance imports : Imports := {|
  TxAttemptInProgress := 1;
  ValidDynamic := fun fee =>
    match EvmFee.DynamicFeeCap fee, EvmFee.DynamicTipCap fee with
    | Some _, Some _ => true
    | _, _ => false
    end;
  EncodeRLP := fun tx =>
    match inner tx with
    | LegacyTxData l => ([0; LegacyTx.Nonce l; LegacyTx.Gas l], None)
    | DynamicFeeTxData d => ([2; DynamicFeeTx.Nonce d; DynamicFeeTx.Gas d], None)
    end;
  TransactionHash := fun tx =>
    match inner tx with
    | LegacyTxData l => 1000 + LegacyTx.Nonce l
    | DynamicFeeTxData d => 2000 + DynamicFeeTx.Nonce d
    end
|}.

Definition config (ceiling : Z) : evmTxAttemptBuilderFeeConfig.t :=
  {| EIP1559DynamicFees := false;
     TipCapMin := Some 1;
     PriceMin := Some 1;
     PriceMaxKey := fun _ => Some ceiling |}.

Definition builder (ceiling : Z) : evmTxAttemptBuilder :=
  {| chainID := 1; feeConfig := config ceiling |}.

Definition etx : Tx.t :=
  {| Tx.ID := 1;
     Tx.Sequence := Some 5;
     Tx.FromAddress := 17;
     Tx.ToAddress := 170;
     Tx.EncodedPayload := [];
     Tx.Value := 0;
     Tx.FeeLimit := 21000 |}.

Definition legacy (p : Z) : EvmFee.t := EvmFee.mk (Some p) None None.

Definition dynamic (feeCap tipCap : Z) : EvmFee.t :=
  EvmFee.mk None (Some feeCap) (Some tipCap).

(** The state of the collaborators: the number of calls answered so far. *)
Definition World := nat.

Definition answer (c : call) (w : World) : reply c * World :=
  match c return reply c * World with
  | GetFee _ _ feeLimit _ _ => ((legacy 100, feeLimit, None), S w)
  | BumpFee _ originalFee feeLimit _ _ =>
      ((EvmFee.mk (option_map (Z.add 10) (EvmFee.Legacy originalFee)) None None,
        feeLimit, None), S w)
  | KeystoreSignTx _ tx _ => ((Some (mkTransaction (inner tx) (27, 1, 1)), None), S w)
  | AssumptionViolation _ _ => (tt, S w)
  end.

(** An estimator that is unavailable: both operations return an error. *)
Definition unavailable : goerror := errors_New "estimator unavailable".

Definition answer_unavailable (c : call) (w : World) : reply c * World :=
  match c return reply c * World with
  | GetFee _ _ _ _ _ => ((EvmFee.zero, 0, Some unavailable), S w)
  | BumpFee _ _ _ _ _ => ((EvmFee.zero, 0, Some unavailable), S w)
  | other => answer other w
  end.

Definition previous : TxAttempt.t :=
  TxAttempt.with_TxFee (legacy 100)
    (TxAttempt.with_ChainSpecificFeeLimit 21000
       (TxAttempt.with_Hash 1005 TxAttempt.zero)).

(** The attempts the example produces: legacy at price 100, dynamic with
    both caps at 10, and the empty attempt at price 100. *)
Definition legacy_attempt : TxAttempt.t :=
  {| TxAttempt.ID := 0;
     TxAttempt.TxID := 1;
     TxAttempt.Tx := etx;
     TxAttempt.TxFee := legacy 100;
     TxAttempt.ChainSpecificFeeLimit := 21000;
     TxAttempt.SignedRawTx := [0; 5; 21000];
     TxAttempt.Hash := 1005;
     TxAttempt.BroadcastBeforeBlockNum := None;
     TxAttempt.State := 1;
     TxAttempt.TxType := 0 |}.

Definition dynamic_attempt : TxAttempt.t :=
  {| TxAttempt.ID := 0;
     TxAttempt.TxID := 1;
     TxAttempt.Tx := etx;
     TxAttempt.TxFee := dynamic 10 10;
     TxAttempt.ChainSpecificFeeLimit := 21000;
     TxAttempt.SignedRawTx := [2; 5; 21000];
     TxAttempt.Hash := 2005;
     TxAttempt.BroadcastBeforeBlockNum := None;
     TxAttempt.State := 1;
     TxAttempt.TxType := 2 |}.

Definition empty_attempt : TxAttempt.t :=
  TxAttempt.with_Hash 1005
    (TxAttempt.with_SignedRawTx [0; 5; 21000] TxAttempt.zero).

(** A keystore that refuses to sign. *)
Definition refused : goerror := errors_New "no such key".

Definition answer_refusing (c : call) (w : World) : reply c * World :=
  match c return reply c * World with
  | KeystoreSignTx _ _ _ => ((None, Some refused), S w)
  | other => answer other w
  end.

(** The intent before a sequence number is assigned to it. *)
Definition etx_unsequenced : Tx.t :=
  {| Tx.ID := 1;
     Tx.Sequence := None;
     Tx.FromAddress := 17;
     Tx.ToAddress := 170;
     Tx.EncodedPayload := [];
     Tx.Value := 0;
     Tx.FeeLimit := 21000 |}.

(** The same builder with dynamic fees enabled. *)
Definition dynamic_builder (ceiling : Z) : evmTxAttemptBuilder :=
  {| chainID := 1;
     feeConfig :=
       {| EIP1559DynamicFees := true;
          TipCapMin := Some 1;
          PriceMin := Some 1;
          PriceMaxKey := fun _ => Some ceiling |} |}.

(** The errors of the example: price 100 against ceiling 50, and a legacy
    quote given for type 2. *)
Definition price_above_ceiling : goerror :=
  errors_Errorf
    "cannot create tx attempt: specified gas price of %s would exceed max configured gas price of %s for key %s"
    [ArgWeiString (Some 100); ArgWeiString (Some 50); ArgAddressString 17].

Definition not_dynamic : goerror :=
  errors_Errorf
    "Attempt %v is a type 2 transaction but estimator did not return dynamic fee bump"
    [ArgInt 0].

End Sample.

(** * Properties *)

(** ** Comparison *)

Lemma Cmp_values (a b : Z) :
  Cmp (Some a) (Some b) =
  Return (match a ?= b with Lt => -1 | Eq => 0 | Gt => 1 end).
Proof. reflexivity. Qed.

Lemma big_Cmp_values (a b : Z) :
  big_Cmp (Some a) (Some b) =
  Return (match a ?= b with Lt => -1 | Eq => 0 | Gt => 1 end).
Proof. reflexivity. Qed.

Lemma sign_gtb (a b : Z) :
  (match a ?= b with Lt => -1 | Eq => 0 | Gt => 1 end >? 0) = (b <? a).
Proof.
  destruct (Z.compare_spec a b) as [E | L | G]; symmetry.
  - subst. apply Z.ltb_irrefl.
  - apply Z.ltb_ge. lia.
  - apply Z.ltb_lt. exact G.
Qed.

Lemma sign_ltb (a b : Z) :
  (match a ?= b with Lt => -1 | Eq => 0 | Gt => 1 end <? 0) = (a <? b).
Proof.
  destruct (Z.compare_spec a b) as [E | L | G]; symmetry.
  - subst. apply Z.ltb_irrefl.
  - apply Z.ltb_lt. exact L.
  - apply Z.ltb_ge. lia.
Qed.

(** Evaluates the comparisons of non-nil prices that are in evaluation
    position, leaving tests [_ <? _] on the integers. *)
Ltac eval_Cmp :=
  repeat (first [rewrite Cmp_values | rewrite big_Cmp_values]; cbn [bind]);
  rewrite ?sign_gtb, ?sign_ltb.

(** ** The validation rules as decision lists *)

Lemma validateLegacyGas_unfold (kse : keySpecificEstimator.t)
  (floor p ceiling : Z) (gasLimit : uint32) (etx : Tx.t) :
  keySpecificEstimator.PriceMaxKey kse (Tx.FromAddress etx) = Some ceiling ->
  validateLegacyGas kse (Some floor) (Some p) gasLimit etx =
  if ceiling <? p then
    Return (Some (errors_Errorf
      "cannot create tx attempt: specified gas price of %s would exceed max configured gas price of %s for key %s"
      [ArgWeiString (Some p); ArgWeiString (Some ceiling);
       ArgAddressString (Tx.FromAddress etx)]))
  else if p <? floor then
    Return (Some (errors_Errorf
      "cannot create tx attempt: specified gas price of %s is below min configured gas price of %s for key %s"
      [ArgWeiString (Some p); ArgWeiString (Some floor);
       ArgAddressString (Tx.FromAddress etx)]))
  else Return None.
Proof.
  intros Hmax. unfold validateLegacyGas. rewrite Hmax.
  eval_Cmp. reflexivity.
Qed.

Lemma validateDynamicFeeGas_unfold (kse : keySpecificEstimator.t)
  (floor feeCap tipCap ceiling : Z) (gasLimit : uint32) (etx : Tx.t) :
  keySpecificEstimator.PriceMaxKey kse (Tx.FromAddress etx) = Some ceiling ->
  validateDynamicFeeGas kse (Some floor)
    (DynamicFee.mk (Some feeCap) (Some tipCap)) gasLimit etx =
  if 2 ^ 256 <? feeCap then Return (Some (errors_New "impossibly large fee cap"))
  else if 2 ^ 256 <? tipCap then Return (Some (errors_New "impossibly large tip cap"))
  else if feeCap <? tipCap then
    Return (Some (errors_Errorf
      "gas fee cap must be greater than or equal to gas tip cap (fee cap: %s, tip cap: %s)"
      [ArgWeiString (Some feeCap); ArgWeiString (Some tipCap)]))
  else if ceiling <? feeCap then
    Return (Some (errors_Errorf
      "cannot create tx attempt: specified gas fee cap of %s would exceed max configured gas price of %s for key %s"
      [ArgWeiString (Some feeCap); ArgWeiString (Some ceiling);
       ArgAddressString (Tx.FromAddress etx)]))
  else if tipCap <? floor then
    Return (Some (errors_Errorf
      "cannot create tx attempt: specified gas tip cap of %s is below min configured gas tip of %s for key %s"
      [ArgWeiString (Some tipCap); ArgWeiString (Some floor);
       ArgAddressString (Tx.FromAddress etx)]))
  else Return None.
Proof.
  intros Hmax.
  unfold validateDynamicFeeGas, Max256BitUInt, ToInt.
  cbn [DynamicFee.TipCap DynamicFee.FeeCap]. rewrite Hmax.
  eval_Cmp. reflexivity.
Qed.

(** C2. Legacy validation succeeds exactly when the price lies between the
    global floor and the ceiling configured for the source address, bounds
    included.  A price above the ceiling is reported by an error formatted
    with the price, the ceiling and the key; a price below the floor (and not
    above the ceiling) by an error formatted with the price, the floor and
    the key. *)
Theorem validateLegacyGas_bounds (kse : keySpecificEstimator.t)
  (floor p ceiling : Z) (gasLimit : uint32) (etx : Tx.t)
  (Hceiling : keySpecificEstimator.PriceMaxKey kse (Tx.FromAddress etx) = Some ceiling) :
  (validateLegacyGas kse (Some floor) (Some p) gasLimit etx = Return None
   <-> floor <= p <= ceiling) /\
  (ceiling < p ->
   exists format,
     validateLegacyGas kse (Some floor) (Some p) gasLimit etx =
     Return (Some (errors_Errorf format
       [ArgWeiString (Some p); ArgWeiString (Some ceiling);
        ArgAddressString (Tx.FromAddress etx)]))) /\
  (p < floor -> p <= ceiling ->
   exists format,
     validateLegacyGas kse (Some floor) (Some p) gasLimit etx =
     Return (Some (errors_Errorf format
       [ArgWeiString (Some p); ArgWeiString (Some floor);
        ArgAddressString (Tx.FromAddress etx)]))).
Proof.
  rewrite (validateLegacyGas_unfold kse floor p ceiling gasLimit etx Hceiling).
  destruct (Z.ltb_spec ceiling p) as [Habove | Hle].
  - split; [split; [discriminate | lia] |].
    split; [intros _; eexists; reflexivity | lia].
  - destruct (Z.ltb_spec p floor) as [Hbelow | Hge].
    + split; [split; [discriminate | lia] |].
      split; [lia | intros _ _; eexists; reflexivity].
    + split; [split; [lia | reflexivity] |].
      split; lia.
Qed.

Lemma validateLegacyGas_bounds_witness :
  keySpecificEstimator.PriceMaxKey
    (as_keySpecificEstimator (Sample.config 1000))
    (Tx.FromAddress Sample.etx) = Some 1000 /\
  (validateLegacyGas (as_keySpecificEstimator (Sample.config 1000))
     (Some 1) (Some 100) 21000 Sample.etx = Return None
   <-> 1 <= 100 <= 1000).
Proof.
  split; [reflexivity |].
  apply (validateLegacyGas_bounds (as_keySpecificEstimator (Sample.config 1000))
           1 100 1000 21000 Sample.etx).
  reflexivity.
Defined.

(** C3. For non-nil caps, a fee cap below the tip cap always fails dynamic
    validation, whatever the configuration; a quote whose fee cap equals its
    tip cap is accepted exactly when the value passes the size check, is at
    most the ceiling of the source address and at least the tip floor: the
    ordering check rejects nothing there. *)
Theorem validateDynamicFeeGas_ordering (kse : keySpecificEstimator.t)
  (tipCapMinimum : WeiPtr) (gasLimit : uint32) (etx : Tx.t) :
  (forall feeCap tipCap : Z,
     feeCap < tipCap ->
     exists e,
       validateDynamicFeeGas kse tipCapMinimum
         (DynamicFee.mk (Some feeCap) (Some tipCap)) gasLimit etx
       = Return (Some e)) /\
  (forall v ceiling floor : Z,
     keySpecificEstimator.PriceMaxKey kse (Tx.FromAddress etx) = Some ceiling ->
     tipCapMinimum = Some floor ->
     (validateDynamicFeeGas kse tipCapMinimum
        (DynamicFee.mk (Some v) (Some v)) gasLimit etx = Return None
      <-> v <= 2 ^ 256 /\ v <= ceiling /\ floor <= v)).
Proof.
  split.
  - intros feeCap tipCap Hlt.
    unfold validateDynamicFeeGas, Max256BitUInt, ToInt.
    cbn [DynamicFee.TipCap DynamicFee.FeeCap].
    eval_Cmp.
    destruct (2 ^ 256 <? feeCap); [eexists; reflexivity |].
    destruct (2 ^ 256 <? tipCap); [eexists; reflexivity |].
    destruct (Z.ltb_spec feeCap tipCap); [eexists; reflexivity | lia].
  - intros v ceiling floor Hmax ->.
    rewrite (validateDynamicFeeGas_unfold kse floor v v ceiling gasLimit etx Hmax).
    rewrite (Z.ltb_irrefl v).
    destruct (Z.ltb_spec (2 ^ 256) v); [split; [discriminate | lia] |].
    destruct (Z.ltb_spec ceiling v); [split; [discriminate | lia] |].
    destruct (Z.ltb_spec v floor); [split; [discriminate | lia] |].
    split; [lia | reflexivity].
Qed.

Lemma validateDynamicFeeGas_ordering_witness :
  (10 < 11 /\
   exists e,
     validateDynamicFeeGas (as_keySpecificEstimator (Sample.config 1000))
       (Some 1) (DynamicFee.mk (Some 10) (Some 11)) 21000 Sample.etx
     = Return (Some e)) /\
  (keySpecificEstimator.PriceMaxKey
     (as_keySpecificEstimator (Sample.config 1000))
     (Tx.FromAddress Sample.etx) = Some 1000 /\
   (validateDynamicFeeGas (as_keySpecificEstimator (Sample.config 1000))
      (Some 1) (DynamicFee.mk (Some 10) (Some 10)) 21000 Sample.etx = Return None
    <-> 10 <= 2 ^ 256 /\ 10 <= 1000 /\ 1 <= 10)).
Proof.
  pose proof (validateDynamicFeeGas_ordering
                (as_keySpecificEstimator (Sample.config 1000))
                (Some 1) 21000 Sample.etx) as [Hbelow Hequal].
  split.
  - split; [lia |]. apply Hbelow. lia.
  - split; [reflexivity |]. apply Hequal; reflexivity.
Defined.

(** C4 (the code at its boundary). A fee cap of 2^256, which is above
    2^256-1 and does not fit 256 bits, passes dynamic validation when the
    configured ceiling allows it: [Max256BitUInt] is 2^256 and the size check
    rejects only what is strictly greater.  The same holds with both caps at
    2^256. *)
Theorem validateDynamicFeeGas_accepts_two_pow_256 :
  let kse := keySpecificEstimator.mk (fun _ => Some (2 ^ 256)) in
  2 ^ 256 > 2 ^ 256 - 1 /\
  validateDynamicFeeGas kse (Some 1)
    (DynamicFee.mk (Some (2 ^ 256)) (Some 1)) 21000 Sample.etx = Return None /\
  validateDynamicFeeGas kse (Some 1)
    (DynamicFee.mk (Some (2 ^ 256)) (Some (2 ^ 256))) 21000 Sample.etx = Return None.
Proof.
  cbv zeta. split; [lia |]. split; vm_compute; reflexivity.
Qed.

(** Dynamic validation does reject, as a validation error, every cap
    strictly above 2^256 (caps non-nil). *)
Lemma validateDynamicFeeGas_rejects_above_two_pow_256
  (kse : keySpecificEstimator.t) (tipCapMinimum : WeiPtr)
  (feeCap tipCap : Z) (gasLimit : uint32) (etx : Tx.t) :
  2 ^ 256 < feeCap \/ 2 ^ 256 < tipCap ->
  exists msg,
    validateDynamicFeeGas kse tipCapMinimum
      (DynamicFee.mk (Some feeCap) (Some tipCap)) gasLimit etx
    = Return (Some (errors_New msg)).
Proof.
  intros Hbig.
  unfold validateDynamicFeeGas, Max256BitUInt, ToInt.
  cbn [DynamicFee.TipCap DynamicFee.FeeCap].
  eval_Cmp.
  destruct (Z.ltb_spec (2 ^ 256) feeCap); [eexists; reflexivity |].
  destruct (Z.ltb_spec (2 ^ 256) tipCap); [eexists; reflexivity | lia].
Qed.

(** ** Running programs *)

Section RunFacts.

Variable World : Type.
Variable answer : forall c : call, World -> reply c * World.

Lemma run_bind {A B : Type} (p : Go A) (f : A -> Go B) (w : World) :
  run answer (bind p f) w =
  match run answer p w with
  | (Returned a, w1, t1) =>
      let '(o, w2, t2) := run answer (f a) w1 in (o, w2, t1 ++ t2)
  | (Panicked msg, w1, t1) => (Panicked msg, w1, t1)
  end.
Proof.
  revert w. induction p as [a | msg | c k IH]; intros w; cbn [bind run].
  - destruct (run answer (f a) w) as [[o w2] t2]. reflexivity.
  - reflexivity.
  - destruct (answer c w) as [r w1]. rewrite IH.
    destruct (run answer (k r) w1) as [[[a | msg] w2] t1].
    + destruct (run answer (f a) w2) as [[o w3] t2]. reflexivity.
    + reflexivity.
Qed.

Lemma run_perform (c : call) (w : World) :
  run answer (perform c) w =
  (Returned (fst (answer c w)), snd (answer c w), [c]).
Proof.
  unfold perform. cbn [run]. destruct (answer c w) as [r w1]. reflexivity.
Qed.

Lemma only_calls_run {A : Type} (P : call -> Prop) (p : Go A) (w : World) :
  only_calls P p -> Forall P (calls answer p w).
Proof.
  unfold calls. revert w.
  induction p as [a | msg | c k IH]; intros w Hp; cbn [run only_calls] in *.
  - constructor.
  - constructor.
  - destruct Hp as [Hc Hk].
    destruct (answer c w) as [r w1].
    specialize (IH r w1 (Hk r)).
    destruct (run answer (k r) w1) as [[o w2] t]. cbn [snd] in *.
    constructor; assumption.
Qed.

End RunFacts.

Lemma only_calls_bind {A B : Type} (P : call -> Prop) (p : Go A) (f : A -> Go B) :
  only_calls P p -> (forall a, only_calls P (f a)) -> only_calls P (bind p f).
Proof.
  intros Hp Hf. induction p as [a | msg | c k IH]; cbn [bind only_calls] in *.
  - apply Hf.
  - exact I.
  - destruct Hp as [Hc Hk]. split; [exact Hc |].
    intros r. apply IH. apply Hk.
Qed.

Lemma only_calls_weaken {A : Type} (P Q : call -> Prop) (p : Go A) :
  (forall c, P c -> Q c) -> only_calls P p -> only_calls Q p.
Proof.
  intros HPQ. induction p as [a | msg | c k IH]; cbn [only_calls]; auto.
  intros [Hc Hk]. split; auto.
Qed.

(** A program that makes no call is a return or a panic. *)
Lemma no_call_cases {A : Type} (p : Go A) :
  only_calls (fun _ => False) p ->
  (exists a, p = Return a) \/ (exists msg, p = Panic msg).
Proof.
  destruct p as [a | msg | c k]; cbn [only_calls].
  - intros _. left. exists a. reflexivity.
  - intros _. right. exists msg. reflexivity.
  - intros [[] _].
Qed.

Lemma deref_no_call {A : Type} (P : call -> Prop) (p : option A) :
  only_calls P (deref p).
Proof. destruct p; exact I. Qed.

Lemma big_Cmp_no_call (P : call -> Prop) (x y : BigIntPtr) :
  only_calls P (big_Cmp x y).
Proof. destruct x, y; exact I. Qed.

Lemma Cmp_no_call (P : call -> Prop) (x y : WeiPtr) : only_calls P (Cmp x y).
Proof. apply big_Cmp_no_call. Qed.

Create HintDb calls.

#[local] Hint Resolve deref_no_call big_Cmp_no_call Cmp_no_call : calls.

(** Splits a program along its binds and branches. *)
Ltac split_calls :=
  repeat first
    [ exact I
    | solve [auto with calls]
    | reflexivity
    | apply only_calls_bind; [| intros ?]
    | match goal with
      | |- only_calls _ (if ?b then _ else _) => destruct b
      | |- only_calls _ (match ?x with _ => _ end) => destruct x
      | |- only_calls _ (Perform _ _) => split; [| intros ?]
      end
    | progress cbn [only_calls perform] ].

(** The validation rules are pure: they call no collaborator. *)
Lemma validateLegacyGas_no_call (P : call -> Prop) kse minGasPriceWei gasPrice
  gasLimit etx :
  only_calls P (validateLegacyGas kse minGasPriceWei gasPrice gasLimit etx).
Proof. unfold validateLegacyGas. split_calls. Qed.

Lemma validateDynamicFeeGas_no_call (P : call -> Prop) kse tipCapMinimum fee
  gasLimit etx :
  only_calls P (validateDynamicFeeGas kse tipCapMinimum fee gasLimit etx).
Proof. unfold validateDynamicFeeGas. split_calls. Qed.

#[local] Hint Resolve validateLegacyGas_no_call validateDynamicFeeGas_no_call
  : calls.

(** ** The builder *)

Section BuilderFacts.

Context {imports : Imports}.

(** Signing reaches the keystore and nothing else. *)
Lemma SignTx_calls (c : evmTxAttemptBuilder) (address : Address) (tx : Transaction) :
  only_calls (fun c' => is_keystore_call c' = true) (SignTx c address tx).
Proof. unfold SignTx. split_calls. Qed.

Lemma newLegacyAttempt_calls c etx gasPrice gasLimit :
  only_calls (fun c' => is_keystore_call c' = true)
    (newLegacyAttempt c etx gasPrice gasLimit).
Proof.
  unfold newLegacyAttempt.
  apply only_calls_bind; [auto with calls | intros [e |]]; [exact I |].
  apply only_calls_bind; [auto with calls | intros sequence].
  apply only_calls_bind; [apply SignTx_calls | intros [[hash raw] [e |]]];
    exact I.
Qed.

Lemma newDynamicFeeAttempt_calls c etx fee gasLimit :
  only_calls (fun c' => is_keystore_call c' = true)
    (newDynamicFeeAttempt c etx fee gasLimit).
Proof.
  unfold newDynamicFeeAttempt, newSignedAttempt.
  apply only_calls_bind; [auto with calls | intros [e |]]; [exact I |].
  apply only_calls_bind; [auto with calls | intros sequence].
  apply only_calls_bind; [| intros [attempt [e |]]; exact I].
  apply only_calls_bind; [apply SignTx_calls | intros [[hash raw] [e |]]];
    exact I.
Qed.

(** Custom construction never reaches the estimator. *)
Lemma NewCustomTxAttempt_calls c etx fee gasLimit txType lggr :
  only_calls (fun c' => is_estimator_call c' = false)
    (NewCustomTxAttempt c etx fee gasLimit txType lggr).
Proof.
  assert (Hks : forall c', is_keystore_call c' = true -> is_estimator_call c' = false)
    by (intros [] ; cbn; congruence).
  unfold NewCustomTxAttempt.
  destruct (txType =? 0); [destruct (EvmFee.Legacy fee) |
    destruct (txType =? 2); [destruct (negb (ValidDynamic fee)) |]].
  - apply only_calls_bind; [| intros [attempt err]; exact I].
    apply (only_calls_weaken _ _ _ Hks), newLegacyAttempt_calls.
  - split_calls.
  - split_calls.
  - apply only_calls_bind; [| intros [attempt err]; exact I].
    apply (only_calls_weaken _ _ _ Hks), newDynamicFeeAttempt_calls.
  - split_calls.
Qed.

Variable World : Type.
Variable answer : forall c : call, World -> reply c * World.

(** C5. When the type is legacy and the quote has no legacy price, when the
    type is dynamic and the quote is not a valid dynamic quote, or when the
    type is neither 0 nor 2, custom construction returns the zero attempt, the
    retryable flag false and an error; the only call made is the report of
    the assumption violation to the logger, so nothing is validated or
    signed. *)
Theorem NewCustomTxAttempt_type_mismatch (w : World) (c : evmTxAttemptBuilder)
  (etx : Tx.t) (fee : EvmFee.t) (gasLimit : uint32) (txType : int) (lggr : Logger)
  (Hmismatch : (txType = 0 /\ EvmFee.Legacy fee = None) \/
               (txType = 2 /\ ValidDynamic fee = false) \/
               (txType <> 0 /\ txType <> 2)) :
  exists e : goerror,
    run answer (NewCustomTxAttempt c etx fee gasLimit txType lggr) w =
    (Returned (TxAttempt.zero, false, Some e),
     snd (answer (AssumptionViolation lggr e) w),
     [AssumptionViolation lggr e]).
Proof.
  unfold NewCustomTxAttempt.
  destruct Hmismatch as [[-> Hnil] | [[-> Hinvalid] | [H0 H2]]].
  - cbn [Z.eqb]. rewrite Hnil. eexists.
    rewrite run_bind, run_perform. reflexivity.
  - cbn [Z.eqb Pos.eqb]. rewrite Hinvalid. cbn [negb]. eexists.
    rewrite run_bind, run_perform. reflexivity.
  - apply Z.eqb_neq in H0, H2. rewrite H0, H2. eexists.
    rewrite run_bind, run_perform. reflexivity.
Qed.

(** C6. When the estimator answers the quote request of
    [NewTxAttemptWithType], or the bump request of [NewBumpTxAttempt], with an
    error, the builder returns that error (wrapped) with the retryable flag
    true and the zero attempt; the estimator call is the only call made. *)
Theorem estimator_error_is_retryable (w w1 : World) (c : evmTxAttemptBuilder)
  (ctx : GoContext) (etx : Tx.t) (lggr : Logger) (fee : EvmFee.t)
  (feeLimit : uint32) (e : goerror) :
  (forall (txType : int) (opts : list Opt),
     answer (GetFee ctx (Tx.EncodedPayload etx) (Tx.FeeLimit etx)
               (PriceMaxKey (feeConfig c) (Tx.FromAddress etx)) opts) w
     = ((fee, feeLimit, Some e), w1) ->
     run answer (NewTxAttemptWithType c ctx etx lggr txType opts) w =
     (Returned (TxAttempt.zero, fee, feeLimit, true,
                Some (errors_Wrap e "failed to get fee")),
      w1,
      [GetFee ctx (Tx.EncodedPayload etx) (Tx.FeeLimit etx)
         (PriceMaxKey (feeConfig c) (Tx.FromAddress etx)) opts])) /\
  (forall (previousAttempt : TxAttempt.t) (priorAttempts : list TxAttempt.t),
     answer (BumpFee ctx (TxAttempt.TxFee previousAttempt) (Tx.FeeLimit etx)
               (PriceMaxKey (feeConfig c) (Tx.FromAddress etx))
               (newEvmPriorAttempts priorAttempts)) w
     = ((fee, feeLimit, Some e), w1) ->
     run answer (NewBumpTxAttempt c ctx etx previousAttempt priorAttempts lggr) w =
     (Returned (TxAttempt.zero, fee, feeLimit, true,
                Some (errors_Wrap e "failed to bump fee")),
      w1,
      [BumpFee ctx (TxAttempt.TxFee previousAttempt) (Tx.FeeLimit etx)
         (PriceMaxKey (feeConfig c) (Tx.FromAddress etx))
         (newEvmPriorAttempts priorAttempts)])).
Proof.
  split.
  - intros txType opts Hanswer.
    unfold NewTxAttemptWithType. rewrite run_bind, run_perform, Hanswer.
    reflexivity.
  - intros previousAttempt priorAttempts Hanswer.
    unfold NewBumpTxAttempt. rewrite run_bind, run_perform, Hanswer.
    reflexivity.
Qed.

(** C7. [NewTxAttempt] is [NewTxAttemptWithType] at type 2 when the
    configuration enables dynamic fees and at type 0 otherwise: the same
    program, hence the same result, final state and calls against every
    estimator and keystore. *)
Theorem NewTxAttempt_is_NewTxAttemptWithType (c : evmTxAttemptBuilder)
  (ctx : GoContext) (etx : Tx.t) (lggr : Logger) (opts : list Opt) (w : World) :
  NewTxAttempt c ctx etx lggr opts =
  NewTxAttemptWithType c ctx etx lggr
    (if EIP1559DynamicFees (feeConfig c) then 2 else 0) opts /\
  run answer (NewTxAttempt c ctx etx lggr opts) w =
  run answer
    (NewTxAttemptWithType c ctx etx lggr
       (if EIP1559DynamicFees (feeConfig c) then 2 else 0) opts) w.
Proof.
  assert (Hprogram : NewTxAttempt c ctx etx lggr opts =
                     NewTxAttemptWithType c ctx etx lggr
                       (if EIP1559DynamicFees (feeConfig c) then 2 else 0) opts).
  { unfold NewTxAttempt. destruct (EIP1559DynamicFees (feeConfig c)); reflexivity. }
  split; [exact Hprogram | rewrite Hprogram; reflexivity].
Qed.

End BuilderFacts.

Lemma NewCustomTxAttempt_type_mismatch_witness :
  ((2 = 0 /\ EvmFee.Legacy (Sample.legacy 100) = None) \/
   (2 = 2 /\ ValidDynamic (Imports := Sample.imports) (Sample.legacy 100) = false) \/
   (2 <> 0 /\ 2 <> 2)) /\
  exists e : goerror,
    run Sample.answer
      (NewCustomTxAttempt (imports := Sample.imports) (Sample.builder 1000)
         Sample.etx (Sample.legacy 100) 21000 2 9) 0%nat =
    (Returned (TxAttempt.zero, false, Some e),
     snd (Sample.answer (AssumptionViolation 9 e) 0%nat),
     [AssumptionViolation 9 e]).
Proof.
  assert (Hmismatch :
    (2 = 0 /\ EvmFee.Legacy (Sample.legacy 100) = None) \/
    (2 = 2 /\ ValidDynamic (Imports := Sample.imports) (Sample.legacy 100) = false) \/
    (2 <> 0 /\ 2 <> 2)).
  { right. left. split; reflexivity. }
  split; [exact Hmismatch |].
  exact (NewCustomTxAttempt_type_mismatch (imports := Sample.imports)
           Sample.World Sample.answer 0%nat (Sample.builder 1000) Sample.etx
           (Sample.legacy 100) 21000 2 9 Hmismatch).
Defined.

Lemma estimator_error_is_retryable_witness :
  (Sample.answer_unavailable
     (GetFee 0 (Tx.EncodedPayload Sample.etx) (Tx.FeeLimit Sample.etx)
        (PriceMaxKey (feeConfig (Sample.builder 1000)) (Tx.FromAddress Sample.etx))
        []) 0%nat
   = ((EvmFee.zero, 0, Some Sample.unavailable), 1%nat) /\
   outcome Sample.answer_unavailable
     (NewTxAttemptWithType (imports := Sample.imports) (Sample.builder 1000) 0
        Sample.etx 9 0 []) 0%nat =
   Returned (TxAttempt.zero, EvmFee.zero, 0, true,
             Some (errors_Wrap Sample.unavailable "failed to get fee"))) /\
  (Sample.answer_unavailable
     (BumpFee 0 (TxAttempt.TxFee Sample.previous) (Tx.FeeLimit Sample.etx)
        (PriceMaxKey (feeConfig (Sample.builder 1000)) (Tx.FromAddress Sample.etx))
        (newEvmPriorAttempts [Sample.previous])) 0%nat
   = ((EvmFee.zero, 0, Some Sample.unavailable), 1%nat) /\
   outcome Sample.answer_unavailable
     (NewBumpTxAttempt (imports := Sample.imports) (Sample.builder 1000) 0
        Sample.etx Sample.previous [Sample.previous] 9) 0%nat =
   Returned (TxAttempt.zero, EvmFee.zero, 0, true,
             Some (errors_Wrap Sample.unavailable "failed to bump fee"))).
Proof.
  pose proof (estimator_error_is_retryable (imports := Sample.imports)
                Sample.World Sample.answer_unavailable 0%nat 1%nat
                (Sample.builder 1000) 0 Sample.etx 9 EvmFee.zero 0
                Sample.unavailable) as [Hquote Hbump].
  split; (split; [reflexivity |]); unfold outcome.
  - rewrite (Hquote 0 []); reflexivity.
  - rewrite (Hbump Sample.previous [Sample.previous]); reflexivity.
Defined.

Section ValidationFailure.

Context {imports : Imports}.

(** C1, as the code has it. When the validation made by the legacy or the
    dynamic construction path returns an error, custom construction returns
    the zero attempt and that error wrapped as "error validating gas", with
    the retryable flag true; it makes no call, so nothing is signed. *)
Theorem NewCustomTxAttempt_validation_failure (c : evmTxAttemptBuilder)
  (etx : Tx.t) (fee : EvmFee.t) (gasLimit : uint32) (txType : int)
  (lggr : Logger) (e : goerror)
  (Hinvalid :
     (txType = 0 /\
      validateLegacyGas (as_keySpecificEstimator (feeConfig c))
        (PriceMin (feeConfig c)) (EvmFee.Legacy fee) gasLimit etx
      = Return (Some e)) \/
     (txType = 2 /\ ValidDynamic fee = true /\
      validateDynamicFeeGas (as_keySpecificEstimator (feeConfig c))
        (TipCapMin (feeConfig c))
        (DynamicFee.mk (EvmFee.DynamicFeeCap fee) (EvmFee.DynamicTipCap fee))
        gasLimit etx
      = Return (Some e))) :
  NewCustomTxAttempt c etx fee gasLimit txType lggr =
  Return (TxAttempt.zero, true, Some (errors_Wrap e "error validating gas")).
Proof.
  unfold NewCustomTxAttempt.
  destruct Hinvalid as [[-> Hlegacy] | [-> [Hvalid Hdynamic]]].
  - cbn [Z.eqb]. destruct (EvmFee.Legacy fee) as [p |] eqn:Hprice.
    + unfold newLegacyAttempt. rewrite Hlegacy. reflexivity.
    + discriminate Hlegacy.
  - cbn [Z.eqb Pos.eqb]. rewrite Hvalid. cbn [negb].
    unfold newDynamicFeeAttempt. rewrite Hdynamic. reflexivity.
Qed.

End ValidationFailure.

Lemma NewCustomTxAttempt_validation_failure_witness :
  validateLegacyGas (as_keySpecificEstimator (feeConfig (Sample.builder 50)))
    (PriceMin (feeConfig (Sample.builder 50)))
    (EvmFee.Legacy (Sample.legacy 100)) 21000 Sample.etx
  = Return (Some (errors_Errorf
      "cannot create tx attempt: specified gas price of %s would exceed max configured gas price of %s for key %s"
      [ArgWeiString (Some 100); ArgWeiString (Some 50); ArgAddressString 17])) /\
  NewCustomTxAttempt (imports := Sample.imports) (Sample.builder 50) Sample.etx
    (Sample.legacy 100) 21000 0 9 =
  Return (TxAttempt.zero, true,
    Some (errors_Wrap
      (errors_Errorf
         "cannot create tx attempt: specified gas price of %s would exceed max configured gas price of %s for key %s"
         [ArgWeiString (Some 100); ArgWeiString (Some 50); ArgAddressString 17])
      "error validating gas")).
Proof.
  split; [reflexivity |].
  apply (NewCustomTxAttempt_validation_failure (imports := Sample.imports)).
  left. split; reflexivity.
Defined.

(** C1, as stated, fails. With floor 1 and ceiling 50 the legacy price 100
    fails validation, and custom construction at type 0 returns an error whose
    retryable flag is true, not false. *)
Lemma validation_error_returned_as_retryable :
  (exists e : goerror,
     validateLegacyGas (as_keySpecificEstimator (feeConfig (Sample.builder 50)))
       (PriceMin (feeConfig (Sample.builder 50))) (Some 100) 21000 Sample.etx
     = Return (Some e)) /\
  ~ (exists (attempt : TxAttempt.t) (err : error),
       outcome Sample.answer
         (NewCustomTxAttempt (imports := Sample.imports) (Sample.builder 50)
            Sample.etx (Sample.legacy 100) 21000 0 9) 0%nat
       = Returned (attempt, false, err)) /\
  (exists (attempt : TxAttempt.t) (e : goerror),
     outcome Sample.answer
       (NewCustomTxAttempt (imports := Sample.imports) (Sample.builder 50)
          Sample.etx (Sample.legacy 100) 21000 0 9) 0%nat
     = Returned (attempt, true, Some e)).
Proof.
  split; [eexists; reflexivity |].
  split.
  - intros (attempt & err & Hrun). vm_compute in Hrun. discriminate Hrun.
  - do 2 eexists. reflexivity.
Qed.

(** ** Inverting a run that returned *)

Section RunInversion.

Variable World : Type.
Variable answer : forall c : call, World -> reply c * World.

Lemma run_bind_Returned {A B : Type} (p : Go A) (f : A -> Go B)
  (w w2 : World) (b : B) (t : list call) :
  run answer (bind p f) w = (Returned b, w2, t) ->
  exists a w1 t1 t2,
    run answer p w = (Returned a, w1, t1) /\
    run answer (f a) w1 = (Returned b, w2, t2) /\
    t = t1 ++ t2.
Proof.
  rewrite run_bind.
  destruct (run answer p w) as [[[a | msg] w1] t1]; [| discriminate].
  destruct (run answer (f a) w1) as [[o w3] t2] eqn:Hf.
  intros [= -> -> <-]. exists a, w1, t1, t2. auto.
Qed.

Lemma run_no_call {A : Type} (p : Go A) (w w1 : World) (a : A) (t : list call) :
  only_calls (fun _ => False) p ->
  run answer p w = (Returned a, w1, t) ->
  p = Return a /\ w1 = w /\ t = [].
Proof.
  intros Hpure Hrun.
  destruct (no_call_cases p Hpure) as [[a' ->] | [msg ->]]; cbn [run] in Hrun.
  - injection Hrun as -> -> ->. auto.
  - discriminate Hrun.
Qed.

End RunInversion.

Lemma newEvmPriorAttempts_from (attempts : list TxAttempt.t)
  (prior : list EvmPriorAttempt.t) :
  fold_left (fun prior a => prior ++ [priorAttempt a]) attempts prior =
  prior ++ map priorAttempt attempts.
Proof.
  revert prior. induction attempts as [| a attempts IH]; intros prior; cbn.
  - symmetry. apply app_nil_r.
  - rewrite IH, <- app_assoc. reflexivity.
Qed.

(** The converted history: the entry of each prior attempt, in order. *)
Lemma newEvmPriorAttempts_map (attempts : list TxAttempt.t) :
  newEvmPriorAttempts attempts = map priorAttempt attempts.
Proof. unfold newEvmPriorAttempts. apply newEvmPriorAttempts_from. Qed.

Section Creation.

Context {imports : Imports}.
Variable World : Type.
Variable answer : forall c : call, World -> reply c * World.

(** C8. [NewBumpTxAttempt] first calls the estimator's bump operation, with
    the fee of the previous attempt, the fee limit of the intent, the price
    ceiling of the source address and the converted history, which has the
    entry of each prior attempt in order; no later call reaches the
    estimator.  When the bump returns no error, the attempt is the one custom
    construction builds from the bumped fee and limit at the transaction type
    of the previous attempt. *)
Theorem NewBumpTxAttempt_bumps_then_constructs (w : World)
  (c : evmTxAttemptBuilder) (ctx : GoContext) (etx : Tx.t)
  (previousAttempt : TxAttempt.t) (priorAttempts : list TxAttempt.t)
  (lggr : Logger) :
  let bump :=
    BumpFee ctx (TxAttempt.TxFee previousAttempt) (Tx.FeeLimit etx)
      (PriceMaxKey (feeConfig c) (Tx.FromAddress etx))
      (map priorAttempt priorAttempts) in
  (List.length (newEvmPriorAttempts priorAttempts) = List.length priorAttempts /\
   forall i, nth_error (newEvmPriorAttempts priorAttempts) i =
             option_map priorAttempt (nth_error priorAttempts i)) /\
  (exists rest,
     calls answer
       (NewBumpTxAttempt c ctx etx previousAttempt priorAttempts lggr) w
     = bump :: rest /\
     Forall (fun c' => is_estimator_call c' = false) rest) /\
  (forall bumpedFee bumpedFeeLimit w1,
     answer bump w = ((bumpedFee, bumpedFeeLimit, None), w1) ->
     run answer (NewBumpTxAttempt c ctx etx previousAttempt priorAttempts lggr) w =
     let '(o, w2, t) :=
       run answer
         (NewCustomTxAttempt c etx bumpedFee bumpedFeeLimit
            (TxAttempt.TxType previousAttempt) lggr) w1 in
     (match o with
      | Returned (attempt, retryable, err) =>
          Returned (attempt, bumpedFee, bumpedFeeLimit, retryable, err)
      | Panicked msg => Panicked msg
      end, w2, bump :: t)).
Proof.
  intros bump. split; [| split].
  - rewrite newEvmPriorAttempts_map. split.
    + apply List.length_map.
    + intros i. apply nth_error_map.
  - unfold calls, NewBumpTxAttempt.
    rewrite newEvmPriorAttempts_map. fold bump.
    rewrite run_bind, run_perform.
    destruct (answer bump w) as [[[fee lim] [e |]] w1]; cbn [fst snd run].
    + exists []. split; [reflexivity | constructor].
    + rewrite run_bind.
      pose proof (only_calls_run World answer _
                    (NewCustomTxAttempt c etx fee lim
                       (TxAttempt.TxType previousAttempt) lggr) w1
                    (NewCustomTxAttempt_calls c etx fee lim _ lggr)) as Hrest.
      unfold calls in Hrest.
      destruct (run answer (NewCustomTxAttempt c etx fee lim
                  (TxAttempt.TxType previousAttempt) lggr) w1)
        as [[[[[attempt retryable] err] | msg] w2] t]; cbn [fst snd run] in *.
      * exists (t ++ []). split; [reflexivity |].
        rewrite app_nil_r. exact Hrest.
      * exists t. split; [reflexivity | exact Hrest].
  - intros bumpedFee bumpedFeeLimit w1 Hanswer.
    unfold NewBumpTxAttempt.
    rewrite newEvmPriorAttempts_map. fold bump.
    rewrite run_bind, run_perform, Hanswer. cbn [fst snd].
    rewrite run_bind.
    destruct (run answer (NewCustomTxAttempt c etx bumpedFee bumpedFeeLimit
                (TxAttempt.TxType previousAttempt) lggr) w1)
      as [[[[[attempt retryable] err] | msg] w2] t]; cbn [run app].
    + rewrite app_nil_r. reflexivity.
    + reflexivity.
Qed.

End Creation.

Lemma NewBumpTxAttempt_bumps_then_constructs_witness :
  Sample.answer
    (BumpFee 0 (TxAttempt.TxFee Sample.previous) (Tx.FeeLimit Sample.etx)
       (PriceMaxKey (feeConfig (Sample.builder 1000)) (Tx.FromAddress Sample.etx))
       (map priorAttempt [Sample.previous])) 0%nat
  = ((Sample.legacy 110, 21000, None), 1%nat) /\
  run Sample.answer
    (NewBumpTxAttempt (imports := Sample.imports) (Sample.builder 1000) 0
       Sample.etx Sample.previous [Sample.previous] 9) 0%nat =
  let '(o, w2, t) :=
    run Sample.answer
      (NewCustomTxAttempt (imports := Sample.imports) (Sample.builder 1000)
         Sample.etx (Sample.legacy 110) 21000
         (TxAttempt.TxType Sample.previous) 9) 1%nat in
  (match o with
   | Returned (attempt, retryable, err) =>
       Returned (attempt, Sample.legacy 110, 21000, retryable, err)
   | Panicked msg => Panicked msg
   end, w2,
   BumpFee 0 (TxAttempt.TxFee Sample.previous) (Tx.FeeLimit Sample.etx)
     (PriceMaxKey (feeConfig (Sample.builder 1000)) (Tx.FromAddress Sample.etx))
     (map priorAttempt [Sample.previous]) :: t).
Proof.
  split; [reflexivity |].
  apply (NewBumpTxAttempt_bumps_then_constructs (imports := Sample.imports)
           Sample.World Sample.answer 0%nat (Sample.builder 1000) 0 Sample.etx
           Sample.previous [Sample.previous] 9).
  reflexivity.
Defined.

Section Construction.

Context {imports : Imports}.
Variable World : Type.
Variable answer : forall c : call, World -> reply c * World.

(** What a successful signing returned: the keystore signed without error
    and the hash and bytes are those of the signed transaction. *)
Lemma SignTx_Returned (c : evmTxAttemptBuilder) (address : Address)
  (tx : Transaction) (w w1 : World) (hash : Hash) (raw : list byte)
  (t : list call) :
  run answer (SignTx c address tx) w = (Returned (hash, raw, None), w1, t) ->
  exists signedTx,
    answer (KeystoreSignTx address tx (Some (chainID c))) w
      = ((Some signedTx, None), w1) /\
    EncodeRLP signedTx = (raw, None) /\
    hash = TransactionHash signedTx /\
    t = [KeystoreSignTx address tx (Some (chainID c))].
Proof.
  unfold SignTx. rewrite run_bind, run_perform.
  destruct (answer (KeystoreSignTx address tx (Some (chainID c))) w)
    as [[signedTx [e |]] w2]; cbn [fst snd run]; [discriminate |].
  destruct signedTx as [signedTx |]; cbn [deref bind run]; [| discriminate].
  destruct (EncodeRLP signedTx) as [rlp [e |]] eqn:Hrlp; cbn [run];
    [discriminate |].
  intros [= <- <- <- <-]. exists signedTx. auto.
Qed.

(** C9. An attempt returned without error by the legacy construction path
    is in state [TxAttemptInProgress], carries the legacy price it was given,
    which passed validation, has type 0 and the gas limit it was given; one
    returned without error by the dynamic path is in state
    [TxAttemptInProgress], carries the fee cap and tip cap it was given, which
    passed validation, has type 2 and the gas limit it was given. *)
Theorem constructed_attempt_fields (w w1 : World) (t : list call)
  (c : evmTxAttemptBuilder) (etx : Tx.t) (gasLimit : uint32)
  (attempt : TxAttempt.t) :
  (forall gasPrice : WeiPtr,
     run answer (newLegacyAttempt c etx gasPrice gasLimit) w
       = (Returned (attempt, None), w1, t) ->
     TxAttempt.State attempt = TxAttemptInProgress /\
     TxAttempt.TxFee attempt = EvmFee.mk gasPrice None None /\
     TxAttempt.TxType attempt = 0 /\
     TxAttempt.ChainSpecificFeeLimit attempt = gasLimit /\
     validateLegacyGas (as_keySpecificEstimator (feeConfig c))
       (PriceMin (feeConfig c)) gasPrice gasLimit etx = Return None) /\
  (forall fee : DynamicFee.t,
     run answer (newDynamicFeeAttempt c etx fee gasLimit) w
       = (Returned (attempt, None), w1, t) ->
     TxAttempt.State attempt = TxAttemptInProgress /\
     TxAttempt.TxFee attempt
       = EvmFee.mk None (DynamicFee.FeeCap fee) (DynamicFee.TipCap fee) /\
     TxAttempt.TxType attempt = 2 /\
     TxAttempt.ChainSpecificFeeLimit attempt = gasLimit /\
     validateDynamicFeeGas (as_keySpecificEstimator (feeConfig c))
       (TipCapMin (feeConfig c)) fee gasLimit etx = Return None).
Proof.
  split.
  - intros gasPrice Hrun. unfold newLegacyAttempt in Hrun.
    apply run_bind_Returned in Hrun as (err & w2 & t1 & t2 & Hvalid & Hrun & _).
    apply run_no_call in Hvalid as (Hvalid & -> & _); [| auto with calls].
    destruct err as [e |]; [discriminate Hrun |].
    apply run_bind_Returned in Hrun as (sequence & w3 & t3 & t4 & _ & Hrun & _).
    apply run_bind_Returned in Hrun
      as ([[hash raw] err] & w4 & t5 & t6 & _ & Hrun & _).
    destruct err as [e |]; [discriminate Hrun |].
    cbn [run] in Hrun. injection Hrun as <- _ _.
    repeat split; try reflexivity. exact Hvalid.
  - intros fee Hrun. unfold newDynamicFeeAttempt in Hrun.
    apply run_bind_Returned in Hrun as (err & w2 & t1 & t2 & Hvalid & Hrun & _).
    apply run_no_call in Hvalid as (Hvalid & -> & _); [| auto with calls].
    destruct err as [e |]; [discriminate Hrun |].
    apply run_bind_Returned in Hrun as (sequence & w3 & t3 & t4 & _ & Hrun & _).
    apply run_bind_Returned in Hrun
      as ([signed err] & w4 & t5 & t6 & Hsigned & Hrun & _).
    destruct err as [e |]; [discriminate Hrun |].
    cbn [run] in Hrun. injection Hrun as <- _ _.
    unfold newSignedAttempt in Hsigned.
    apply run_bind_Returned in Hsigned
      as ([[hash raw] err] & w5 & t7 & t8 & _ & Hsigned & _).
    destruct err as [e |]; [discriminate Hsigned |].
    cbn [run] in Hsigned. injection Hsigned as <- _ _.
    repeat split; try reflexivity. exact Hvalid.
Qed.

(** C10. An attempt returned without error by [NewEmptyTxAttempt] is the
    zero attempt with only its signed bytes and its hash assigned, which are
    the encoding and the hash of what the keystore signed: its state, fee,
    type and fee limit are the zero values.  Its state is therefore not
    [TxAttemptInProgress] as soon as that constant is not the zero value of
    its type. *)
Theorem NewEmptyTxAttempt_frame (w w1 : World) (t : list call)
  (c : evmTxAttemptBuilder) (nonce : int64) (feeLimit : uint32)
  (fee : EvmFee.t) (fromAddress : Address) (attempt : TxAttempt.t)
  (Hrun : run answer (NewEmptyTxAttempt c nonce feeLimit fee fromAddress) w
          = (Returned (attempt, None), w1, t)) :
  attempt =
    TxAttempt.with_Hash (TxAttempt.Hash attempt)
      (TxAttempt.with_SignedRawTx (TxAttempt.SignedRawTx attempt) TxAttempt.zero) /\
  (exists signedTx,
     EncodeRLP signedTx = (TxAttempt.SignedRawTx attempt, None) /\
     TxAttempt.Hash attempt = TransactionHash signedTx) /\
  TxAttempt.State attempt = 0 /\
  TxAttempt.TxFee attempt = EvmFee.zero /\
  TxAttempt.TxType attempt = 0 /\
  TxAttempt.ChainSpecificFeeLimit attempt = 0 /\
  (TxAttemptInProgress <> 0 -> TxAttempt.State attempt <> TxAttemptInProgress).
Proof.
  unfold NewEmptyTxAttempt in Hrun.
  destruct (EvmFee.Legacy fee) as [price |]; [| discriminate Hrun].
  apply run_bind_Returned in Hrun
    as ([[hash raw] err] & w2 & t1 & t2 & Hsign & Hrun & _).
  destruct err as [e |]; [discriminate Hrun |].
  cbn [run] in Hrun. injection Hrun as <- _ _.
  apply SignTx_Returned in Hsign as (signedTx & _ & Hrlp & -> & _).
  cbn.
  split; [reflexivity |].
  split; [exists signedTx; split; [exact Hrlp | reflexivity] |].
  repeat split; try reflexivity.
  intros Hnonzero Hstate. apply Hnonzero. symmetry. exact Hstate.
Qed.

End Construction.

Lemma constructed_attempt_fields_witness :
  (run Sample.answer
     (newLegacyAttempt (imports := Sample.imports) (Sample.builder 1000)
        Sample.etx (Some 100) 21000) 0%nat
   = (Returned (Sample.legacy_attempt, None), 1%nat,
      calls Sample.answer
        (newLegacyAttempt (imports := Sample.imports) (Sample.builder 1000)
           Sample.etx (Some 100) 21000) 0%nat) /\
   TxAttempt.State Sample.legacy_attempt
     = TxAttemptInProgress (Imports := Sample.imports) /\
   TxAttempt.TxFee Sample.legacy_attempt = EvmFee.mk (Some 100) None None /\
   TxAttempt.TxType Sample.legacy_attempt = 0 /\
   TxAttempt.ChainSpecificFeeLimit Sample.legacy_attempt = 21000) /\
  (run Sample.answer
     (newDynamicFeeAttempt (imports := Sample.imports) (Sample.builder 1000)
        Sample.etx (DynamicFee.mk (Some 10) (Some 10)) 21000) 0%nat
   = (Returned (Sample.dynamic_attempt, None), 1%nat,
      calls Sample.answer
        (newDynamicFeeAttempt (imports := Sample.imports) (Sample.builder 1000)
           Sample.etx (DynamicFee.mk (Some 10) (Some 10)) 21000) 0%nat) /\
   TxAttempt.State Sample.dynamic_attempt
     = TxAttemptInProgress (Imports := Sample.imports) /\
   TxAttempt.TxFee Sample.dynamic_attempt = EvmFee.mk None (Some 10) (Some 10) /\
   TxAttempt.TxType Sample.dynamic_attempt = 2 /\
   TxAttempt.ChainSpecificFeeLimit Sample.dynamic_attempt = 21000).
Proof.
  split.
  - assert (Hrun :
      run Sample.answer
        (newLegacyAttempt (imports := Sample.imports) (Sample.builder 1000)
           Sample.etx (Some 100) 21000) 0%nat
      = (Returned (Sample.legacy_attempt, None), 1%nat,
         calls Sample.answer
           (newLegacyAttempt (imports := Sample.imports) (Sample.builder 1000)
              Sample.etx (Some 100) 21000) 0%nat)) by reflexivity.
    split; [exact Hrun |].
    destruct (proj1 (constructed_attempt_fields (imports := Sample.imports)
                       Sample.World Sample.answer 0%nat 1%nat _
                       (Sample.builder 1000) Sample.etx 21000
                       Sample.legacy_attempt) (Some 100) Hrun)
      as (Hstate & Hfee & Htype & Hlimit & _).
    auto.
  - assert (Hrun :
      run Sample.answer
        (newDynamicFeeAttempt (imports := Sample.imports) (Sample.builder 1000)
           Sample.etx (DynamicFee.mk (Some 10) (Some 10)) 21000) 0%nat
      = (Returned (Sample.dynamic_attempt, None), 1%nat,
         calls Sample.answer
           (newDynamicFeeAttempt (imports := Sample.imports) (Sample.builder 1000)
              Sample.etx (DynamicFee.mk (Some 10) (Some 10)) 21000) 0%nat))
      by reflexivity.
    split; [exact Hrun |].
    destruct (proj2 (constructed_attempt_fields (imports := Sample.imports)
                       Sample.World Sample.answer 0%nat 1%nat _
                       (Sample.builder 1000) Sample.etx 21000
                       Sample.dynamic_attempt)
                (DynamicFee.mk (Some 10) (Some 10)) Hrun)
      as (Hstate & Hfee & Htype & Hlimit & _).
    auto.
Defined.

Lemma NewEmptyTxAttempt_frame_witness :
  run Sample.answer
    (NewEmptyTxAttempt (imports := Sample.imports) (Sample.builder 1000) 5 21000
       (Sample.legacy 100) 17) 0%nat
  = (Returned (Sample.empty_attempt, None), 1%nat,
     calls Sample.answer
       (NewEmptyTxAttempt (imports := Sample.imports) (Sample.builder 1000) 5
          21000 (Sample.legacy 100) 17) 0%nat) /\
  TxAttemptInProgress (Imports := Sample.imports) <> 0 /\
  TxAttempt.State Sample.empty_attempt = 0 /\
  TxAttempt.TxFee Sample.empty_attempt = EvmFee.zero /\
  TxAttempt.TxType Sample.empty_attempt = 0 /\
  TxAttempt.ChainSpecificFeeLimit Sample.empty_attempt = 0 /\
  TxAttempt.State Sample.empty_attempt
    <> TxAttemptInProgress (Imports := Sample.imports).
Proof.
  assert (Hrun :
    run Sample.answer
      (NewEmptyTxAttempt (imports := Sample.imports) (Sample.builder 1000) 5
         21000 (Sample.legacy 100) 17) 0%nat
    = (Returned (Sample.empty_attempt, None), 1%nat,
       calls Sample.answer
         (NewEmptyTxAttempt (imports := Sample.imports) (Sample.builder 1000) 5
            21000 (Sample.legacy 100) 17) 0%nat)) by reflexivity.
  assert (Hnonzero : TxAttemptInProgress (Imports := Sample.imports) <> 0)
    by discriminate.
  destruct (NewEmptyTxAttempt_frame (imports := Sample.imports)
              Sample.World Sample.answer 0%nat 1%nat _ (Sample.builder 1000)
              5 21000 (Sample.legacy 100) 17 Sample.empty_attempt Hrun)
    as (_ & _ & Hstate & Hfee & Htype & Hlimit & Hnot).
  repeat split; auto.
Defined.

(** ** The construction paths do produce attempts *)

Section Success.

Context {imports : Imports}.
Variable World : Type.
Variable answer : forall c : call, World -> reply c * World.

Lemma SignTx_succeeds (c : evmTxAttemptBuilder) (address : Address)
  (tx signedTx : Transaction) (raw : list byte) (w w1 : World) :
  answer (KeystoreSignTx address tx (Some (chainID c))) w
    = ((Some signedTx, None), w1) ->
  EncodeRLP signedTx = (raw, None) ->
  run answer (SignTx c address tx) w =
  (Returned (TransactionHash signedTx, raw, None), w1,
   [KeystoreSignTx address tx (Some (chainID c))]).
Proof.
  intros Hsign Hrlp. unfold SignTx.
  rewrite run_bind, run_perform, Hsign. cbn [fst snd deref bind].
  rewrite Hrlp. reflexivity.
Qed.

(** A validated legacy price, an assigned sequence number and a keystore
    that signs give an attempt. *)
Lemma newLegacyAttempt_succeeds (c : evmTxAttemptBuilder) (etx : Tx.t)
  (gasPrice : WeiPtr) (gasLimit : uint32) (sequence : int64)
  (signedTx : Transaction) (raw : list byte) (w w1 : World) :
  validateLegacyGas (as_keySpecificEstimator (feeConfig c))
    (PriceMin (feeConfig c)) gasPrice gasLimit etx = Return None ->
  Tx.Sequence etx = Some sequence ->
  answer (KeystoreSignTx (Tx.FromAddress etx)
            (NewTx (LegacyTxData
               (newLegacyTransaction (uint64_of_int64 sequence)
                  (Tx.ToAddress etx) (Some (Tx.Value etx)) gasLimit gasPrice
                  (Tx.EncodedPayload etx))))
            (Some (chainID c))) w
    = ((Some signedTx, None), w1) ->
  EncodeRLP signedTx = (raw, None) ->
  exists attempt,
    outcome answer (newLegacyAttempt c etx gasPrice gasLimit) w
      = Returned (attempt, None) /\
    TxAttempt.SignedRawTx attempt = raw /\
    TxAttempt.Hash attempt = TransactionHash signedTx.
Proof.
  intros Hvalid Hseq Hsign Hrlp.
  unfold outcome, newLegacyAttempt.
  rewrite Hvalid, Hseq. cbn [bind deref].
  rewrite run_bind, (SignTx_succeeds _ _ _ _ _ _ _ Hsign Hrlp).
  cbn [run fst]. eexists. split; [reflexivity |]. split; reflexivity.
Qed.

(** A validated dynamic quote, an assigned sequence number and a keystore
    that signs give an attempt. *)
Lemma newDynamicFeeAttempt_succeeds (c : evmTxAttemptBuilder) (etx : Tx.t)
  (fee : DynamicFee.t) (gasLimit : uint32) (sequence : int64)
  (signedTx : Transaction) (raw : list byte) (w w1 : World) :
  validateDynamicFeeGas (as_keySpecificEstimator (feeConfig c))
    (TipCapMin (feeConfig c)) fee gasLimit etx = Return None ->
  Tx.Sequence etx = Some sequence ->
  answer (KeystoreSignTx (Tx.FromAddress etx)
            (NewTx (DynamicFeeTxData
               (newDynamicFeeTransaction (uint64_of_int64 sequence)
                  (Tx.ToAddress etx) (Some (Tx.Value etx)) gasLimit
                  (Some (chainID c)) (DynamicFee.TipCap fee)
                  (DynamicFee.FeeCap fee) (Tx.EncodedPayload etx))))
            (Some (chainID c))) w
    = ((Some signedTx, None), w1) ->
  EncodeRLP signedTx = (raw, None) ->
  exists attempt,
    outcome answer (newDynamicFeeAttempt c etx fee gasLimit) w
      = Returned (attempt, None) /\
    TxAttempt.SignedRawTx attempt = raw /\
    TxAttempt.Hash attempt = TransactionHash signedTx.
Proof.
  intros Hvalid Hseq Hsign Hrlp.
  unfold outcome, newDynamicFeeAttempt, newSignedAttempt.
  rewrite Hvalid, Hseq. cbn [bind deref].
  rewrite !run_bind, (SignTx_succeeds _ _ _ _ _ _ _ Hsign Hrlp).
  cbn [run fst]. eexists. split; [reflexivity |]. split; reflexivity.
Qed.

(** A legacy price and a keystore that signs give the empty attempt. *)
Lemma NewEmptyTxAttempt_succeeds (c : evmTxAttemptBuilder) (nonce : int64)
  (feeLimit : uint32) (fee : EvmFee.t) (price : Z) (fromAddress : Address)
  (signedTx : Transaction) (raw : list byte) (w w1 : World) :
  EvmFee.Legacy fee = Some price ->
  answer (KeystoreSignTx fromAddress
            (NewTransaction (uint64_of_int64 nonce) fromAddress (Some 0)
               (uint64_of_uint32 feeLimit) (Some price) [])
            (Some (chainID c))) w
    = ((Some signedTx, None), w1) ->
  EncodeRLP signedTx = (raw, None) ->
  outcome answer (NewEmptyTxAttempt c nonce feeLimit fee fromAddress) w
    = Returned
        (TxAttempt.with_Hash (TransactionHash signedTx)
           (TxAttempt.with_SignedRawTx raw TxAttempt.zero), None).
Proof.
  intros Hprice Hsign Hrlp.
  unfold outcome, NewEmptyTxAttempt. rewrite Hprice. unfold ToInt.
  rewrite run_bind, (SignTx_succeeds _ _ _ _ _ _ _ Hsign Hrlp).
  reflexivity.
Qed.

End Success.

(** * Further properties of the builder *)

(** ** What the validation rules accept *)

(** A legacy price that passes validation is non-nil and lies between a
    non-nil floor and a non-nil ceiling. *)
Lemma validateLegacyGas_accepted (kse : keySpecificEstimator.t)
  (minGasPriceWei gasPrice : WeiPtr) (gasLimit : uint32) (etx : Tx.t) :
  validateLegacyGas kse minGasPriceWei gasPrice gasLimit etx = Return None ->
  exists p ceiling floor,
    gasPrice = Some p /\
    keySpecificEstimator.PriceMaxKey kse (Tx.FromAddress etx) = Some ceiling /\
    minGasPriceWei = Some floor /\
    floor <= p <= ceiling.
Proof.
  destruct gasPrice as [p |]; [| discriminate].
  destruct (keySpecificEstimator.PriceMaxKey kse (Tx.FromAddress etx))
    as [ceiling |] eqn:Hmax.
  - destruct minGasPriceWei as [floor |].
    + rewrite (validateLegacyGas_unfold kse floor p ceiling gasLimit etx Hmax).
      destruct (Z.ltb_spec ceiling p); [discriminate |].
      destruct (Z.ltb_spec p floor); [discriminate |].
      intros _. exists p, ceiling, floor. repeat split; auto.
    + unfold validateLegacyGas. rewrite Hmax. eval_Cmp.
      destruct (ceiling <? p); discriminate.
  - unfold validateLegacyGas. rewrite Hmax. discriminate.
Qed.

(** A dynamic quote that passes validation has non-nil caps, ordered and
    within a non-nil tip floor, a non-nil ceiling and the size limit. *)
Lemma validateDynamicFeeGas_accepted (kse : keySpecificEstimator.t)
  (tipCapMinimum : WeiPtr) (fee : DynamicFee.t) (gasLimit : uint32) (etx : Tx.t) :
  validateDynamicFeeGas kse tipCapMinimum fee gasLimit etx = Return None ->
  exists feeCap tipCap ceiling floor,
    DynamicFee.FeeCap fee = Some feeCap /\
    DynamicFee.TipCap fee = Some tipCap /\
    keySpecificEstimator.PriceMaxKey kse (Tx.FromAddress etx) = Some ceiling /\
    tipCapMinimum = Some floor /\
    floor <= tipCap /\ tipCap <= feeCap /\ feeCap <= ceiling /\ feeCap <= 2 ^ 256.
Proof.
  destruct fee as [[feeCap |] [tipCap |]]; try discriminate.
  destruct (keySpecificEstimator.PriceMaxKey kse (Tx.FromAddress etx))
    as [ceiling |] eqn:Hmax.
  - destruct tipCapMinimum as [floor |].
    + rewrite (validateDynamicFeeGas_unfold kse floor feeCap tipCap ceiling
                 gasLimit etx Hmax).
      destruct (Z.ltb_spec (2 ^ 256) feeCap); [discriminate |].
      destruct (Z.ltb_spec (2 ^ 256) tipCap); [discriminate |].
      destruct (Z.ltb_spec feeCap tipCap); [discriminate |].
      destruct (Z.ltb_spec ceiling feeCap); [discriminate |].
      destruct (Z.ltb_spec tipCap floor); [discriminate |].
      intros _. exists feeCap, tipCap, ceiling, floor. repeat split; auto.
    + unfold validateDynamicFeeGas, Max256BitUInt, ToInt.
      cbn [DynamicFee.TipCap DynamicFee.FeeCap]. rewrite Hmax. eval_Cmp.
      destruct (2 ^ 256 <? feeCap); [discriminate |].
      destruct (2 ^ 256 <? tipCap); [discriminate |].
      destruct (feeCap <? tipCap); [discriminate |].
      destruct (ceiling <? feeCap); discriminate.
  - unfold validateDynamicFeeGas, Max256BitUInt, ToInt.
    cbn [DynamicFee.TipCap DynamicFee.FeeCap]. rewrite Hmax. eval_Cmp.
    destruct (2 ^ 256 <? feeCap); [discriminate |].
    destruct (2 ^ 256 <? tipCap); [discriminate |].
    destruct (feeCap <? tipCap); discriminate.
Qed.

(** X1. With non-nil caps, ceiling and tip floor, dynamic validation
    succeeds exactly when both caps are at most [Max256BitUInt], the tip cap
    is at most the fee cap, the fee cap is at most the ceiling of the source
    address and the tip cap is at least the tip floor. *)
Theorem validateDynamicFeeGas_accepts_iff (kse : keySpecificEstimator.t)
  (floor feeCap tipCap ceiling : Z) (gasLimit : uint32) (etx : Tx.t)
  (Hceiling : keySpecificEstimator.PriceMaxKey kse (Tx.FromAddress etx) = Some ceiling) :
  validateDynamicFeeGas kse (Some floor)
    (DynamicFee.mk (Some feeCap) (Some tipCap)) gasLimit etx = Return None
  <-> feeCap <= 2 ^ 256 /\ tipCap <= 2 ^ 256 /\ tipCap <= feeCap /\
      feeCap <= ceiling /\ floor <= tipCap.
Proof.
  rewrite (validateDynamicFeeGas_unfold kse floor feeCap tipCap ceiling
             gasLimit etx Hceiling).
  destruct (Z.ltb_spec (2 ^ 256) feeCap); [split; [discriminate | lia] |].
  destruct (Z.ltb_spec (2 ^ 256) tipCap); [split; [discriminate | lia] |].
  destruct (Z.ltb_spec feeCap tipCap); [split; [discriminate | lia] |].
  destruct (Z.ltb_spec ceiling feeCap); [split; [discriminate | lia] |].
  destruct (Z.ltb_spec tipCap floor); [split; [discriminate | lia] |].
  split; [lia | reflexivity].
Qed.

Lemma validateDynamicFeeGas_accepts_iff_witness :
  keySpecificEstimator.PriceMaxKey
    (as_keySpecificEstimator (Sample.config 1000))
    (Tx.FromAddress Sample.etx) = Some 1000 /\
  (validateDynamicFeeGas (as_keySpecificEstimator (Sample.config 1000)) (Some 1)
     (DynamicFee.mk (Some 30) (Some 2)) 21000 Sample.etx = Return None
   <-> 30 <= 2 ^ 256 /\ 2 <= 2 ^ 256 /\ 2 <= 30 /\ 30 <= 1000 /\ 1 <= 2).
Proof.
  split; [reflexivity |].
  apply (validateDynamicFeeGas_accepts_iff
           (as_keySpecificEstimator (Sample.config 1000)) 1 30 2 1000 21000
           Sample.etx).
  reflexivity.
Defined.

(** X2. For caps that pass the size and ordering checks, a fee cap above
    the ceiling is reported by an error formatted with the fee cap, the
    ceiling and the key; otherwise a tip cap below the tip floor is reported
    by an error formatted with the tip cap, the floor and the key. *)
Theorem validateDynamicFeeGas_reports_bound (kse : keySpecificEstimator.t)
  (floor feeCap tipCap ceiling : Z) (gasLimit : uint32) (etx : Tx.t)
  (Hceiling : keySpecificEstimator.PriceMaxKey kse (Tx.FromAddress etx) = Some ceiling)
  (Hsize : feeCap <= 2 ^ 256) (Horder : tipCap <= feeCap) :
  (ceiling < feeCap ->
   exists format,
     validateDynamicFeeGas kse (Some floor)
       (DynamicFee.mk (Some feeCap) (Some tipCap)) gasLimit etx =
     Return (Some (errors_Errorf format
       [ArgWeiString (Some feeCap); ArgWeiString (Some ceiling);
        ArgAddressString (Tx.FromAddress etx)]))) /\
  (feeCap <= ceiling -> tipCap < floor ->
   exists format,
     validateDynamicFeeGas kse (Some floor)
       (DynamicFee.mk (Some feeCap) (Some tipCap)) gasLimit etx =
     Return (Some (errors_Errorf format
       [ArgWeiString (Some tipCap); ArgWeiString (Some floor);
        ArgAddressString (Tx.FromAddress etx)]))).
Proof.
  rewrite (validateDynamicFeeGas_unfold kse floor feeCap tipCap ceiling
             gasLimit etx Hceiling).
  destruct (Z.ltb_spec (2 ^ 256) feeCap); [lia |].
  destruct (Z.ltb_spec (2 ^ 256) tipCap); [lia |].
  destruct (Z.ltb_spec feeCap tipCap); [lia |].
  destruct (Z.ltb_spec ceiling feeCap).
  - split; [intros _; eexists; reflexivity | lia].
  - split; [lia |]. intros _ Hbelow.
    destruct (Z.ltb_spec tipCap floor); [eexists; reflexivity | lia].
Qed.

Lemma validateDynamicFeeGas_reports_bound_witness :
  (keySpecificEstimator.PriceMaxKey
     (as_keySpecificEstimator (Sample.config 50))
     (Tx.FromAddress Sample.etx) = Some 50 /\
   60 <= 2 ^ 256 /\ 2 <= 60 /\ 50 < 60) /\
  exists format,
    validateDynamicFeeGas (as_keySpecificEstimator (Sample.config 50)) (Some 1)
      (DynamicFee.mk (Some 60) (Some 2)) 21000 Sample.etx =
    Return (Some (errors_Errorf format
      [ArgWeiString (Some 60); ArgWeiString (Some 50); ArgAddressString 17])).
Proof.
  assert (Hsize : 60 <= 2 ^ 256) by (vm_compute; discriminate).
  assert (Horder : 2 <= 60) by lia.
  assert (Habove : 50 < 60) by lia.
  split; [repeat split; assumption |].
  exact (proj1 (validateDynamicFeeGas_reports_bound
                  (as_keySpecificEstimator (Sample.config 50)) 1 60 2 50 21000
                  Sample.etx eq_refl Hsize Horder) Habove).
Defined.

(** ** The construction paths, run *)

Section ConstructionRuns.

Context {imports : Imports}.
Variable World : Type.
Variable answer : forall c : call, World -> reply c * World.

(** Signing makes one keystore call; its result follows the reply. *)
Lemma run_SignTx (c : evmTxAttemptBuilder) (address : Address) (tx : Transaction)
  (w : World) :
  run answer (SignTx c address tx) w =
  let k := KeystoreSignTx address tx (Some (chainID c)) in
  (match snd (fst (answer k w)) with
   | Some e => Returned (0, [], Some (errors_Wrap e "SignTx failed"))
   | None =>
       match fst (fst (answer k w)) with
       | None => Panicked nil_dereference
       | Some signedTx =>
           match snd (EncodeRLP signedTx) with
           | Some e => Returned (0, [], Some (errors_Wrap e "SignTx failed"))
           | None =>
               Returned (TransactionHash signedTx, fst (EncodeRLP signedTx), None)
           end
       end
   end, snd (answer k w), [k]).
Proof.
  unfold SignTx. rewrite run_bind, run_perform. cbv zeta.
  destruct (answer (KeystoreSignTx address tx (Some (chainID c))) w)
    as [[signedTx [e |]] w1]; cbn [fst snd run app]; [reflexivity |].
  destruct signedTx as [signedTx |]; cbn [deref bind run]; [| reflexivity].
  destruct (EncodeRLP signedTx) as [rlp [e |]]; reflexivity.
Qed.

(** The legacy path after a successful validation, for an intent with a
    sequence number: one signing call, then the attempt or the error. *)
Lemma run_newLegacyAttempt (c : evmTxAttemptBuilder) (etx : Tx.t)
  (gasPrice : WeiPtr) (gasLimit : uint32) (sequence : int64) (w : World) :
  validateLegacyGas (as_keySpecificEstimator (feeConfig c))
    (PriceMin (feeConfig c)) gasPrice gasLimit etx = Return None ->
  Tx.Sequence etx = Some sequence ->
  run answer (newLegacyAttempt c etx gasPrice gasLimit) w =
  let k :=
    KeystoreSignTx (Tx.FromAddress etx)
      (NewTx (LegacyTxData
         {| LegacyTx.Nonce := sequence mod 2 ^ 64;
            LegacyTx.To := Some (Tx.ToAddress etx);
            LegacyTx.Value := Some (Tx.Value etx);
            LegacyTx.Gas := gasLimit;
            LegacyTx.GasPrice := gasPrice;
            LegacyTx.Data := Tx.EncodedPayload etx |}))
      (Some (chainID c)) in
  let failed e :=
    Returned (TxAttempt.zero,
      Some (errors_Wrapf (errors_Wrap e "SignTx failed")
              "error using account %s to sign transaction %v"
              [ArgAddress (Tx.FromAddress etx); ArgInt (Tx.ID etx)])) in
  (match snd (fst (answer k w)) with
   | Some e => failed e
   | None =>
     match fst (fst (answer k w)) with
     | None => Panicked nil_dereference
     | Some signedTx =>
       match snd (EncodeRLP signedTx) with
       | Some e => failed e
       | None =>
           Returned
             ({| TxAttempt.ID := 0;
                 TxAttempt.TxID := Tx.ID etx;
                 TxAttempt.Tx := etx;
                 TxAttempt.TxFee := EvmFee.mk gasPrice None None;
                 TxAttempt.ChainSpecificFeeLimit := gasLimit;
                 TxAttempt.SignedRawTx := fst (EncodeRLP signedTx);
                 TxAttempt.Hash := TransactionHash signedTx;
                 TxAttempt.BroadcastBeforeBlockNum := None;
                 TxAttempt.State := TxAttemptInProgress;
                 TxAttempt.TxType := 0 |}, None)
       end
     end
   end, snd (answer k w), [k]).
Proof.
  intros Hvalid Hseq. unfold newLegacyAttempt.
  rewrite Hvalid, Hseq. cbn [bind deref].
  rewrite run_bind, run_SignTx. cbv zeta.
  unfold newLegacyTransaction, uint64_of_int64, uint64_of_uint32, ToInt.
  destruct (answer _ w) as [[signedTx [e |]] w1]; cbn [fst snd run app];
    [reflexivity |].
  destruct signedTx as [signedTx |]; [| reflexivity].
  destruct (EncodeRLP signedTx) as [rlp [e |]]; reflexivity.
Qed.

(** The dynamic path after a successful validation, for an intent with a
    sequence number. *)
Lemma run_newDynamicFeeAttempt (c : evmTxAttemptBuilder) (etx : Tx.t)
  (fee : DynamicFee.t) (gasLimit : uint32) (sequence : int64) (w : World) :
  validateDynamicFeeGas (as_keySpecificEstimator (feeConfig c))
    (TipCapMin (feeConfig c)) fee gasLimit etx = Return None ->
  Tx.Sequence etx = Some sequence ->
  run answer (newDynamicFeeAttempt c etx fee gasLimit) w =
  let k :=
    KeystoreSignTx (Tx.FromAddress etx)
      (NewTx (DynamicFeeTxData
         {| DynamicFeeTx.ChainID := Some (chainID c);
            DynamicFeeTx.Nonce := sequence mod 2 ^ 64;
            DynamicFeeTx.GasTipCap := DynamicFee.TipCap fee;
            DynamicFeeTx.GasFeeCap := DynamicFee.FeeCap fee;
            DynamicFeeTx.Gas := gasLimit;
            DynamicFeeTx.To := Some (Tx.ToAddress etx);
            DynamicFeeTx.Value := Some (Tx.Value etx);
            DynamicFeeTx.Data := Tx.EncodedPayload etx |}))
      (Some (chainID c)) in
  let failed e :=
    Returned (TxAttempt.zero,
      Some (errors_Wrapf (errors_Wrap e "SignTx failed")
              "error using account %s to sign transaction %v"
              [ArgAddressString (Tx.FromAddress etx); ArgInt (Tx.ID etx)])) in
  (match snd (fst (answer k w)) with
   | Some e => failed e
   | None =>
     match fst (fst (answer k w)) with
     | None => Panicked nil_dereference
     | Some signedTx =>
       match snd (EncodeRLP signedTx) with
       | Some e => failed e
       | None =>
           Returned
             ({| TxAttempt.ID := 0;
                 TxAttempt.TxID := Tx.ID etx;
                 TxAttempt.Tx := etx;
                 TxAttempt.TxFee :=
                   EvmFee.mk None (DynamicFee.FeeCap fee) (DynamicFee.TipCap fee);
                 TxAttempt.ChainSpecificFeeLimit := gasLimit;
                 TxAttempt.SignedRawTx := fst (EncodeRLP signedTx);
                 TxAttempt.Hash := TransactionHash signedTx;
                 TxAttempt.BroadcastBeforeBlockNum := None;
                 TxAttempt.State := TxAttemptInProgress;
                 TxAttempt.TxType := 2 |}, None)
       end
     end
   end, snd (answer k w), [k]).
Proof.
  intros Hvalid Hseq. unfold newDynamicFeeAttempt, newSignedAttempt.
  rewrite Hvalid, Hseq. cbn [bind deref].
  rewrite !run_bind, run_SignTx. cbv zeta.
  unfold newDynamicFeeTransaction, uint64_of_int64, uint64_of_uint32, ToInt.
  destruct (answer _ w) as [[signedTx [e |]] w1]; cbn [fst snd run app];
    [reflexivity |].
  destruct signedTx as [signedTx |]; [| reflexivity].
  destruct (EncodeRLP signedTx) as [rlp [e |]]; reflexivity.
Qed.

(** How a construction path ends, whatever the validation and the intent. *)
Lemma newLegacyAttempt_cases (c : evmTxAttemptBuilder) (etx : Tx.t)
  (gasPrice : WeiPtr) (gasLimit : uint32) :
  (exists msg, newLegacyAttempt c etx gasPrice gasLimit = Panic msg) \/
  (exists e, newLegacyAttempt c etx gasPrice gasLimit
             = Return (TxAttempt.zero, Some e)) \/
  (validateLegacyGas (as_keySpecificEstimator (feeConfig c))
     (PriceMin (feeConfig c)) gasPrice gasLimit etx = Return None /\
   exists sequence, Tx.Sequence etx = Some sequence).
Proof.
  destruct (no_call_cases _
              (validateLegacyGas_no_call (fun _ => False)
                 (as_keySpecificEstimator (feeConfig c)) (PriceMin (feeConfig c))
                 gasPrice gasLimit etx)) as [[[e |] Hvalid] | [msg Hvalid]].
  - right. left. eexists. unfold newLegacyAttempt. rewrite Hvalid. reflexivity.
  - destruct (Tx.Sequence etx) as [sequence |] eqn:Hseq.
    + right. right. split; [exact Hvalid | exists sequence; reflexivity].
    + left. eexists. unfold newLegacyAttempt. rewrite Hvalid, Hseq. reflexivity.
  - left. eexists. unfold newLegacyAttempt. rewrite Hvalid. reflexivity.
Qed.

Lemma newDynamicFeeAttempt_cases (c : evmTxAttemptBuilder) (etx : Tx.t)
  (fee : DynamicFee.t) (gasLimit : uint32) :
  (exists msg, newDynamicFeeAttempt c etx fee gasLimit = Panic msg) \/
  (exists e, newDynamicFeeAttempt c etx fee gasLimit
             = Return (TxAttempt.zero, Some e)) \/
  (validateDynamicFeeGas (as_keySpecificEstimator (feeConfig c))
     (TipCapMin (feeConfig c)) fee gasLimit etx = Return None /\
   exists sequence, Tx.Sequence etx = Some sequence).
Proof.
  destruct (no_call_cases _
              (validateDynamicFeeGas_no_call (fun _ => False)
                 (as_keySpecificEstimator (feeConfig c)) (TipCapMin (feeConfig c))
                 fee gasLimit etx)) as [[[e |] Hvalid] | [msg Hvalid]].
  - right. left. eexists. unfold newDynamicFeeAttempt. rewrite Hvalid. reflexivity.
  - destruct (Tx.Sequence etx) as [sequence |] eqn:Hseq.
    + right. right. split; [exact Hvalid | exists sequence; reflexivity].
    + left. eexists. unfold newDynamicFeeAttempt. rewrite Hvalid, Hseq.
      reflexivity.
  - left. eexists. unfold newDynamicFeeAttempt. rewrite Hvalid. reflexivity.
Qed.

End ConstructionRuns.

(** ** Custom construction, case by case *)

Section CustomConstruction.

Context {imports : Imports}.
Variable World : Type.
Variable answer : forall c : call, World -> reply c * World.

(** Adds the retryable flag [true] to what a construction path returned. *)
Lemma run_NewCustomTxAttempt_legacy (c : evmTxAttemptBuilder) (etx : Tx.t)
  (fee : EvmFee.t) (gasLimit : uint32) (lggr : Logger) (w : World) :
  EvmFee.Legacy fee <> None ->
  run answer (NewCustomTxAttempt c etx fee gasLimit 0 lggr) w =
  let '(o, w1, t) :=
    run answer (newLegacyAttempt c etx (EvmFee.Legacy fee) gasLimit) w in
  (match o with
   | Returned (attempt, err) => Returned (attempt, true, err)
   | Panicked msg => Panicked msg
   end, w1, t).
Proof.
  intros Hprice. unfold NewCustomTxAttempt. cbn [Z.eqb].
  destruct (EvmFee.Legacy fee) as [p |]; [| contradiction].
  rewrite run_bind.
  destruct (run answer (newLegacyAttempt c etx (Some p) gasLimit) w)
    as [[[[attempt err] | msg] w1] t]; cbn [run]; rewrite ?app_nil_r; reflexivity.
Qed.

Lemma run_NewCustomTxAttempt_dynamic (c : evmTxAttemptBuilder) (etx : Tx.t)
  (fee : EvmFee.t) (gasLimit : uint32) (lggr : Logger) (w : World) :
  ValidDynamic fee = true ->
  run answer (NewCustomTxAttempt c etx fee gasLimit 2 lggr) w =
  let '(o, w1, t) :=
    run answer
      (newDynamicFeeAttempt c etx
         (DynamicFee.mk (EvmFee.DynamicFeeCap fee) (EvmFee.DynamicTipCap fee))
         gasLimit) w in
  (match o with
   | Returned (attempt, err) => Returned (attempt, true, err)
   | Panicked msg => Panicked msg
   end, w1, t).
Proof.
  intros Hvalid. unfold NewCustomTxAttempt. cbn [Z.eqb Pos.eqb].
  rewrite Hvalid. cbn [negb]. rewrite run_bind.
  destruct (run answer (newDynamicFeeAttempt c etx _ gasLimit) w)
    as [[[[attempt err] | msg] w1] t]; cbn [run]; rewrite ?app_nil_r; reflexivity.
Qed.

(** The three branches of the switch on the type, as runs. *)
Lemma NewCustomTxAttempt_branches (c : evmTxAttemptBuilder) (etx : Tx.t)
  (fee : EvmFee.t) (gasLimit : uint32) (txType : int) (lggr : Logger) (w : World) :
  (((txType = 0 /\ EvmFee.Legacy fee = None) \/
    (txType = 2 /\ ValidDynamic fee = false) \/
    (txType <> 0 /\ txType <> 2)) /\
   exists e,
     run answer (NewCustomTxAttempt c etx fee gasLimit txType lggr) w =
     (Returned (TxAttempt.zero, false, Some e),
      snd (answer (AssumptionViolation lggr e) w),
      [AssumptionViolation lggr e])) \/
  (txType = 0 /\ EvmFee.Legacy fee <> None) \/
  (txType = 2 /\ ValidDynamic fee = true).
Proof.
  unfold NewCustomTxAttempt.
  destruct (Z.eqb_spec txType 0) as [-> | H0].
  - destruct (EvmFee.Legacy fee) as [p |] eqn:Hprice.
    + right. left. split; [reflexivity | discriminate].
    + left. split; [left; auto |]. eexists.
      rewrite run_bind, run_perform. reflexivity.
  - destruct (Z.eqb_spec txType 2) as [-> | H2].
    + destruct (ValidDynamic fee) eqn:Hvalid; cbn [negb].
      * right. right. auto.
      * left. split; [right; left; auto |]. eexists.
        rewrite run_bind, run_perform. reflexivity.
    + left. split; [right; right; auto |]. eexists.
      rewrite run_bind, run_perform. reflexivity.
Qed.

End CustomConstruction.

(** Opens up the hypothesis [H] on the run of a construction path that
    passed validation: the reply of the keystore, then the encoding. *)
Ltac open_signing H :=
  cbv zeta in H;
  match type of H with
  | context [?answer (KeystoreSignTx ?a ?tx ?ch) ?w] =>
      let Hanswer := fresh "Hanswer" in
      destruct (answer (KeystoreSignTx a tx ch) w)
        as [[[?signedTx |] [?e |]] ?w'] eqn:Hanswer
  end;
  cbn [fst snd] in H; try discriminate H;
  try match type of H with
      | context [EncodeRLP ?s] =>
          let Hrlp := fresh "Hrlp" in
          destruct (EncodeRLP s) as [?rlp [?e |]] eqn:Hrlp
      end;
  cbn [fst snd] in H; try discriminate H.

Section CustomOutcomes.

Context {imports : Imports}.
Variable World : Type.
Variable answer : forall c : call, World -> reply c * World.


(** Whenever custom construction returns an error, the attempt it returns
    is the zero attempt. *)
Lemma custom_error_zero_attempt (w w1 : World) (t : list call)
  (c : evmTxAttemptBuilder) (etx : Tx.t) (fee : EvmFee.t) (gasLimit : uint32)
  (txType : int) (lggr : Logger) (attempt : TxAttempt.t) (retryable : bool)
  (e : goerror)
  (Hrun : run answer (NewCustomTxAttempt c etx fee gasLimit txType lggr) w
          = (Returned (attempt, retryable, Some e), w1, t)) :
  attempt = TxAttempt.zero.
Proof.
  destruct (NewCustomTxAttempt_branches World answer c etx fee gasLimit txType
              lggr w) as [[_ [e' Hmismatch]] | [[-> Hprice] | [-> Hvalid]]].
  - rewrite Hmismatch in Hrun. injection Hrun as <- _ _ _ _. reflexivity.
  - rewrite run_NewCustomTxAttempt_legacy in Hrun by exact Hprice.
    destruct (newLegacyAttempt_cases c etx (EvmFee.Legacy fee) gasLimit)
      as [[msg Hp] | [[e' Hp] | [Hok [sequence Hseq]]]].
    + rewrite Hp in Hrun. discriminate Hrun.
    + rewrite Hp in Hrun. cbn [run] in Hrun. injection Hrun as <- _ _ _.
      reflexivity.
    + rewrite (run_newLegacyAttempt World answer c etx _ gasLimit sequence w
                 Hok Hseq) in Hrun.
      open_signing Hrun; injection Hrun as <- _ _ _; reflexivity.
  - rewrite run_NewCustomTxAttempt_dynamic in Hrun by exact Hvalid.
    destruct (newDynamicFeeAttempt_cases c etx
                (DynamicFee.mk (EvmFee.DynamicFeeCap fee) (EvmFee.DynamicTipCap fee))
                gasLimit)
      as [[msg Hp] | [[e' Hp] | [Hok [sequence Hseq]]]].
    + rewrite Hp in Hrun. discriminate Hrun.
    + rewrite Hp in Hrun. cbn [run] in Hrun. injection Hrun as <- _ _ _.
      reflexivity.
    + rewrite (run_newDynamicFeeAttempt World answer c etx _ gasLimit sequence w
                 Hok Hseq) in Hrun.
      open_signing Hrun; injection Hrun as <- _ _ _; reflexivity.
Qed.

(** X5. Custom construction returns the retryable flag false only for a
    mismatch between the type and the quote or for an unknown type; it then
    returns an error, and its only call reports that error to the logger. *)
Theorem NewCustomTxAttempt_fatal_only_on_mismatch (w w1 : World) (t : list call)
  (c : evmTxAttemptBuilder) (etx : Tx.t) (fee : EvmFee.t) (gasLimit : uint32)
  (txType : int) (lggr : Logger) (attempt : TxAttempt.t) (err : error)
  (Hrun : run answer (NewCustomTxAttempt c etx fee gasLimit txType lggr) w
          = (Returned (attempt, false, err), w1, t)) :
  ((txType = 0 /\ EvmFee.Legacy fee = None) \/
   (txType = 2 /\ ValidDynamic fee = false) \/
   (txType <> 0 /\ txType <> 2)) /\
  exists e, err = Some e /\ t = [AssumptionViolation lggr e].
Proof.
  destruct (NewCustomTxAttempt_branches World answer c etx fee gasLimit txType
              lggr w) as [[Hcase [e Hmismatch]] | [[-> Hprice] | [-> Hvalid]]].
  - split; [exact Hcase |]. rewrite Hmismatch in Hrun.
    injection Hrun as _ <- _ <-. exists e. auto.
  - rewrite run_NewCustomTxAttempt_legacy in Hrun by exact Hprice.
    destruct (run answer (newLegacyAttempt c etx (EvmFee.Legacy fee) gasLimit) w)
      as [[[[a err'] | msg] w2] t2]; discriminate Hrun.
  - rewrite run_NewCustomTxAttempt_dynamic in Hrun by exact Hvalid.
    destruct (run answer (newDynamicFeeAttempt c etx _ gasLimit) w)
      as [[[[a err'] | msg] w2] t2]; discriminate Hrun.
Qed.

End CustomOutcomes.

Section CustomSuccess.

Context {imports : Imports}.
Variable World : Type.
Variable answer : forall c : call, World -> reply c * World.

(** X6. Custom construction never produces an attempt with invalid gas
    parameters: an attempt returned without error comes with the retryable
    flag true, has the requested type, which is 0 or 2, and carries either a
    legacy price between the configured floor and the ceiling of the source
    address, or a tip cap and a fee cap with floor <= tip cap <= fee cap <=
    ceiling and fee cap <= [Max256BitUInt]. *)
Theorem NewCustomTxAttempt_success_within_bounds (w w1 : World) (t : list call)
  (c : evmTxAttemptBuilder) (etx : Tx.t) (fee : EvmFee.t) (gasLimit : uint32)
  (txType : int) (lggr : Logger) (attempt : TxAttempt.t) (retryable : bool)
  (Hrun : run answer (NewCustomTxAttempt c etx fee gasLimit txType lggr) w
          = (Returned (attempt, retryable, None), w1, t)) :
  retryable = true /\
  TxAttempt.TxType attempt = txType /\
  ((txType = 0 /\
    exists p ceiling floor,
      TxAttempt.TxFee attempt = EvmFee.mk (Some p) None None /\
      EvmFee.Legacy fee = Some p /\
      PriceMaxKey (feeConfig c) (Tx.FromAddress etx) = Some ceiling /\
      PriceMin (feeConfig c) = Some floor /\
      floor <= p <= ceiling) \/
   (txType = 2 /\
    exists feeCap tipCap ceiling floor,
      TxAttempt.TxFee attempt = EvmFee.mk None (Some feeCap) (Some tipCap) /\
      EvmFee.DynamicFeeCap fee = Some feeCap /\
      EvmFee.DynamicTipCap fee = Some tipCap /\
      PriceMaxKey (feeConfig c) (Tx.FromAddress etx) = Some ceiling /\
      TipCapMin (feeConfig c) = Some floor /\
      floor <= tipCap /\ tipCap <= feeCap /\ feeCap <= ceiling /\
      feeCap <= 2 ^ 256)).
Proof.
  destruct (NewCustomTxAttempt_branches World answer c etx fee gasLimit txType
              lggr w) as [[_ [e' Hmismatch]] | [[-> Hprice] | [-> Hvalid]]].
  - rewrite Hmismatch in Hrun. discriminate Hrun.
  - rewrite run_NewCustomTxAttempt_legacy in Hrun by exact Hprice.
    destruct (newLegacyAttempt_cases c etx (EvmFee.Legacy fee) gasLimit)
      as [[msg Hp] | [[e' Hp] | [Hok [sequence Hseq]]]];
      [rewrite Hp in Hrun; discriminate Hrun .. |].
    rewrite (run_newLegacyAttempt World answer c etx _ gasLimit sequence w
               Hok Hseq) in Hrun.
    open_signing Hrun. injection Hrun as <- <- _ _.
    destruct (validateLegacyGas_accepted _ _ _ _ _ Hok)
      as (p & ceiling & floor & Hp & Hmax & Hmin & Hbounds).
    split; [reflexivity |]. split; [reflexivity |]. left.
    split; [reflexivity |]. exists p, ceiling, floor.
    cbn [TxAttempt.TxFee]. rewrite Hp. destruct Hbounds as [Hlow Hhigh].
    repeat split; assumption || reflexivity.
  - rewrite run_NewCustomTxAttempt_dynamic in Hrun by exact Hvalid.
    destruct (newDynamicFeeAttempt_cases c etx
                (DynamicFee.mk (EvmFee.DynamicFeeCap fee) (EvmFee.DynamicTipCap fee))
                gasLimit)
      as [[msg Hp] | [[e' Hp] | [Hok [sequence Hseq]]]];
      [rewrite Hp in Hrun; discriminate Hrun .. |].
    rewrite (run_newDynamicFeeAttempt World answer c etx _ gasLimit sequence w
               Hok Hseq) in Hrun.
    open_signing Hrun. injection Hrun as <- <- _ _.
    destruct (validateDynamicFeeGas_accepted _ _ _ _ _ Hok)
      as (feeCap & tipCap & ceiling & floor & Hfee & Htip & Hmax & Hmin & Hbounds).
    cbn [DynamicFee.FeeCap DynamicFee.TipCap] in Hfee, Htip.
    split; [reflexivity |]. split; [reflexivity |]. right.
    split; [reflexivity |]. exists feeCap, tipCap, ceiling, floor.
    cbn [TxAttempt.TxFee DynamicFee.FeeCap DynamicFee.TipCap].
    rewrite Hfee, Htip. destruct Hbounds as (Hlow & Horder & Hhigh & Hsize).
    repeat split; assumption || reflexivity.
Qed.

(** X7. An attempt returned without error by custom construction was
    signed exactly once and nothing else was called: the only call is one
    signing request to the keystore for the source address and the chain of
    the builder, the keystore returned a signed transaction, and the attempt
    holds the encoding and the hash of that signed transaction, the
    identifier of the intent and the intent itself; its own identifier and
    its broadcast block are unset. *)
Theorem NewCustomTxAttempt_success_signed_once (w w1 : World) (t : list call)
  (c : evmTxAttemptBuilder) (etx : Tx.t) (fee : EvmFee.t) (gasLimit : uint32)
  (txType : int) (lggr : Logger) (attempt : TxAttempt.t) (retryable : bool)
  (Hrun : run answer (NewCustomTxAttempt c etx fee gasLimit txType lggr) w
          = (Returned (attempt, retryable, None), w1, t)) :
  exists tx signedTx,
    t = [KeystoreSignTx (Tx.FromAddress etx) tx (Some (chainID c))] /\
    answer (KeystoreSignTx (Tx.FromAddress etx) tx (Some (chainID c))) w
      = ((Some signedTx, None), w1) /\
    EncodeRLP signedTx = (TxAttempt.SignedRawTx attempt, None) /\
    TxAttempt.Hash attempt = TransactionHash signedTx /\
    TxAttempt.TxID attempt = Tx.ID etx /\
    TxAttempt.Tx attempt = etx /\
    TxAttempt.ID attempt = 0 /\
    TxAttempt.BroadcastBeforeBlockNum attempt = None.
Proof.
  destruct (NewCustomTxAttempt_branches World answer c etx fee gasLimit txType
              lggr w) as [[_ [e' Hmismatch]] | [[-> Hprice] | [-> Hvalid]]].
  - rewrite Hmismatch in Hrun. discriminate Hrun.
  - rewrite run_NewCustomTxAttempt_legacy in Hrun by exact Hprice.
    destruct (newLegacyAttempt_cases c etx (EvmFee.Legacy fee) gasLimit)
      as [[msg Hp] | [[e' Hp] | [Hok [sequence Hseq]]]];
      [rewrite Hp in Hrun; discriminate Hrun .. |].
    rewrite (run_newLegacyAttempt World answer c etx _ gasLimit sequence w
               Hok Hseq) in Hrun.
    open_signing Hrun. injection Hrun as <- _ <- <-.
    do 2 eexists. split; [reflexivity |]. split; [exact Hanswer |].
    cbn. repeat split; reflexivity || exact Hrlp.
  - rewrite run_NewCustomTxAttempt_dynamic in Hrun by exact Hvalid.
    destruct (newDynamicFeeAttempt_cases c etx
                (DynamicFee.mk (EvmFee.DynamicFeeCap fee) (EvmFee.DynamicTipCap fee))
                gasLimit)
      as [[msg Hp] | [[e' Hp] | [Hok [sequence Hseq]]]];
      [rewrite Hp in Hrun; discriminate Hrun .. |].
    rewrite (run_newDynamicFeeAttempt World answer c etx _ gasLimit sequence w
               Hok Hseq) in Hrun.
    open_signing Hrun. injection Hrun as <- _ <- <-.
    do 2 eexists. split; [reflexivity |]. split; [exact Hanswer |].
    cbn. repeat split; reflexivity || exact Hrlp.
Qed.

End CustomSuccess.

Section SignedRequest.

Context {imports : Imports}.
Variable World : Type.
Variable answer : forall c : call, World -> reply c * World.

(** X8. Once validation has passed for an intent with a sequence number,
    the legacy path makes exactly one call: it asks the keystore to sign, for
    the source address and the chain of the builder, the unsigned legacy
    transaction whose nonce is the sequence number (as a uint64), whose
    destination, value and data are those of the intent, whose gas is the gas
    limit and whose gas price is the quoted price. *)
Theorem newLegacyAttempt_signs_the_intent (w : World) (c : evmTxAttemptBuilder)
  (etx : Tx.t) (gasPrice : WeiPtr) (gasLimit : uint32) (sequence : int64)
  (Hvalid : validateLegacyGas (as_keySpecificEstimator (feeConfig c))
              (PriceMin (feeConfig c)) gasPrice gasLimit etx = Return None)
  (Hsequence : Tx.Sequence etx = Some sequence) :
  calls answer (newLegacyAttempt c etx gasPrice gasLimit) w =
  [KeystoreSignTx (Tx.FromAddress etx)
     {| inner := LegacyTxData
          {| LegacyTx.Nonce := sequence mod 2 ^ 64;
             LegacyTx.To := Some (Tx.ToAddress etx);
             LegacyTx.Value := Some (Tx.Value etx);
             LegacyTx.Gas := gasLimit;
             LegacyTx.GasPrice := gasPrice;
             LegacyTx.Data := Tx.EncodedPayload etx |};
        signature := (0, 0, 0) |}
     (Some (chainID c))].
Proof.
  unfold calls.
  rewrite (run_newLegacyAttempt World answer c etx gasPrice gasLimit sequence w
             Hvalid Hsequence).
  reflexivity.
Qed.

(** X9. Once validation has passed for an intent with a sequence number,
    the dynamic path makes exactly one call: it asks the keystore to sign the
    unsigned dynamic-fee transaction for the chain of the builder whose nonce
    is the sequence number (as a uint64), whose destination, value and data
    are those of the intent, whose gas is the gas limit and whose tip cap and
    fee cap are those of the quote, each in its own field. *)
Theorem newDynamicFeeAttempt_signs_the_intent (w : World)
  (c : evmTxAttemptBuilder) (etx : Tx.t) (fee : DynamicFee.t)
  (gasLimit : uint32) (sequence : int64)
  (Hvalid : validateDynamicFeeGas (as_keySpecificEstimator (feeConfig c))
              (TipCapMin (feeConfig c)) fee gasLimit etx = Return None)
  (Hsequence : Tx.Sequence etx = Some sequence) :
  calls answer (newDynamicFeeAttempt c etx fee gasLimit) w =
  [KeystoreSignTx (Tx.FromAddress etx)
     {| inner := DynamicFeeTxData
          {| DynamicFeeTx.ChainID := Some (chainID c);
             DynamicFeeTx.Nonce := sequence mod 2 ^ 64;
             DynamicFeeTx.GasTipCap := DynamicFee.TipCap fee;
             DynamicFeeTx.GasFeeCap := DynamicFee.FeeCap fee;
             DynamicFeeTx.Gas := gasLimit;
             DynamicFeeTx.To := Some (Tx.ToAddress etx);
             DynamicFeeTx.Value := Some (Tx.Value etx);
             DynamicFeeTx.Data := Tx.EncodedPayload etx |};
        signature := (0, 0, 0) |}
     (Some (chainID c))].
Proof.
  unfold calls.
  rewrite (run_newDynamicFeeAttempt World answer c etx fee gasLimit sequence w
             Hvalid Hsequence).
  reflexivity.
Qed.

(** X10. For an intent without a sequence number, custom construction
    whose validation passes panics on the nil sequence, before any call:
    nothing is signed. *)
Theorem NewCustomTxAttempt_without_sequence (w : World) (c : evmTxAttemptBuilder)
  (etx : Tx.t) (fee : EvmFee.t) (gasLimit : uint32) (txType : int)
  (lggr : Logger)
  (Hvalid :
     (txType = 0 /\
      validateLegacyGas (as_keySpecificEstimator (feeConfig c))
        (PriceMin (feeConfig c)) (EvmFee.Legacy fee) gasLimit etx = Return None) \/
     (txType = 2 /\ ValidDynamic fee = true /\
      validateDynamicFeeGas (as_keySpecificEstimator (feeConfig c))
        (TipCapMin (feeConfig c))
        (DynamicFee.mk (EvmFee.DynamicFeeCap fee) (EvmFee.DynamicTipCap fee))
        gasLimit etx = Return None))
  (Hsequence : Tx.Sequence etx = None) :
  run answer (NewCustomTxAttempt c etx fee gasLimit txType lggr) w =
  (Panicked nil_dereference, w, []).
Proof.
  destruct Hvalid as [[-> Hlegacy] | [-> [Hdynamic Hcaps]]].
  - rewrite run_NewCustomTxAttempt_legacy
      by (intros Hnil; rewrite Hnil in Hlegacy; discriminate Hlegacy).
    unfold newLegacyAttempt. rewrite Hlegacy, Hsequence. reflexivity.
  - rewrite run_NewCustomTxAttempt_dynamic by exact Hdynamic.
    unfold newDynamicFeeAttempt. rewrite Hcaps, Hsequence. reflexivity.
Qed.

(** X11. For every non-nil legacy price, whatever the configured floor and
    ceiling, [NewEmptyTxAttempt] makes exactly one call: it asks the keystore
    to sign, for the source address, the unsigned legacy transaction with the
    given nonce (as a uint64), value 0, no data, the fee limit as gas, the
    legacy price as gas price, and the source address itself as
    destination. *)
Theorem NewEmptyTxAttempt_signs_transfer_to_self (w : World)
  (c : evmTxAttemptBuilder) (nonce : int64) (feeLimit : uint32) (fee : EvmFee.t)
  (fromAddress : Address) (price : Z)
  (Hprice : EvmFee.Legacy fee = Some price) :
  calls answer (NewEmptyTxAttempt c nonce feeLimit fee fromAddress) w =
  [KeystoreSignTx fromAddress
     {| inner := LegacyTxData
          {| LegacyTx.Nonce := nonce mod 2 ^ 64;
             LegacyTx.To := Some fromAddress;
             LegacyTx.Value := Some 0;
             LegacyTx.Gas := feeLimit;
             LegacyTx.GasPrice := Some price;
             LegacyTx.Data := [] |};
        signature := (0, 0, 0) |}
     (Some (chainID c))].
Proof.
  unfold calls, NewEmptyTxAttempt. rewrite Hprice.
  rewrite run_bind, run_SignTx. cbv zeta.
  unfold NewTransaction, NewTx, uint64_of_int64, uint64_of_uint32, ToInt.
  destruct (answer _ w) as [[signedTx [e |]] w1]; cbn [fst snd];
    [reflexivity |].
  destruct signedTx as [signedTx |]; [| reflexivity].
  destruct (EncodeRLP signedTx) as [rlp [e |]]; reflexivity.
Qed.

End SignedRequest.

(** ** The operations that ask the estimator *)

Section EstimatorOperations.

Context {imports : Imports}.
Variable World : Type.
Variable answer : forall c : call, World -> reply c * World.

Lemma run_after_estimator (fee : EvmFee.t) (feeLimit : uint32) (err : error) (w1 : World)
  (failure : string) (custom : Go (TxAttempt.t * bool * error)) :
  run answer
    (match err with
     | Some e =>
         Return (TxAttempt.zero, fee, feeLimit, true,
                 Some (errors_Wrap e failure))
     | None =>
         bind custom (fun x =>
           match x with
           | (attempt, retryable, err') =>
               Return (attempt, fee, feeLimit, retryable, err')
           end)
     end) w1 =
  match err with
  | Some e =>
      (Returned (TxAttempt.zero, fee, feeLimit, true,
                 Some (errors_Wrap e failure)), w1, [])
  | None =>
      (with_quote fee feeLimit (fst (fst (run answer custom w1))),
       snd (fst (run answer custom w1)), snd (run answer custom w1))
  end.
Proof.
  destruct err as [e |]; [reflexivity |].
  rewrite run_bind.
  destruct (run answer custom w1) as [[[[[attempt retryable] err'] | msg] w2] t];
    cbn [run fst snd with_quote]; rewrite ?app_nil_r; reflexivity.
Qed.

Lemma run_NewTxAttemptWithType (c : evmTxAttemptBuilder) (ctx : GoContext)
  (etx : Tx.t) (lggr : Logger) (txType : int) (opts : list Opt) (w : World)
  (fee : EvmFee.t) (feeLimit : uint32) (err : error) (w1 : World) :
  answer (GetFee ctx (Tx.EncodedPayload etx) (Tx.FeeLimit etx)
            (PriceMaxKey (feeConfig c) (Tx.FromAddress etx)) opts) w
    = ((fee, feeLimit, err), w1) ->
  run answer (NewTxAttemptWithType c ctx etx lggr txType opts) w =
  let k := GetFee ctx (Tx.EncodedPayload etx) (Tx.FeeLimit etx)
             (PriceMaxKey (feeConfig c) (Tx.FromAddress etx)) opts in
  let custom := NewCustomTxAttempt c etx fee feeLimit txType lggr in
  match err with
  | Some e =>
      (Returned (TxAttempt.zero, fee, feeLimit, true,
                 Some (errors_Wrap e "failed to get fee")), w1, [k])
  | None =>
      (with_quote fee feeLimit (fst (fst (run answer custom w1))),
       snd (fst (run answer custom w1)), k :: snd (run answer custom w1))
  end.
Proof.
  intros Hanswer. unfold NewTxAttemptWithType.
  rewrite run_bind, run_perform, Hanswer. cbn [fst snd].
  rewrite run_after_estimator.
  destruct err; reflexivity.
Qed.

Lemma run_NewBumpTxAttempt (c : evmTxAttemptBuilder) (ctx : GoContext)
  (etx : Tx.t) (previousAttempt : TxAttempt.t) (priorAttempts : list TxAttempt.t)
  (lggr : Logger) (w : World)
  (fee : EvmFee.t) (feeLimit : uint32) (err : error) (w1 : World) :
  answer (BumpFee ctx (TxAttempt.TxFee previousAttempt) (Tx.FeeLimit etx)
            (PriceMaxKey (feeConfig c) (Tx.FromAddress etx))
            (newEvmPriorAttempts priorAttempts)) w
    = ((fee, feeLimit, err), w1) ->
  run answer (NewBumpTxAttempt c ctx etx previousAttempt priorAttempts lggr) w =
  let k := BumpFee ctx (TxAttempt.TxFee previousAttempt) (Tx.FeeLimit etx)
             (PriceMaxKey (feeConfig c) (Tx.FromAddress etx))
             (newEvmPriorAttempts priorAttempts) in
  let custom :=
    NewCustomTxAttempt c etx fee feeLimit (TxAttempt.TxType previousAttempt) lggr in
  match err with
  | Some e =>
      (Returned (TxAttempt.zero, fee, feeLimit, true,
                 Some (errors_Wrap e "failed to bump fee")), w1, [k])
  | None =>
      (with_quote fee feeLimit (fst (fst (run answer custom w1))),
       snd (fst (run answer custom w1)), k :: snd (run answer custom w1))
  end.
Proof.
  intros Hanswer. unfold NewBumpTxAttempt.
  rewrite run_bind, run_perform, Hanswer. cbn [fst snd].
  rewrite run_after_estimator.
  destruct err; reflexivity.
Qed.

(** The type, the limit and the flag of an attempt custom construction
    returned without error. *)
Lemma custom_success_fields (w w1 : World) (t : list call)
  (c : evmTxAttemptBuilder) (etx : Tx.t) (fee : EvmFee.t) (gasLimit : uint32)
  (txType : int) (lggr : Logger) (attempt : TxAttempt.t) (retryable : bool) :
  run answer (NewCustomTxAttempt c etx fee gasLimit txType lggr) w
    = (Returned (attempt, retryable, None), w1, t) ->
  retryable = true /\
  TxAttempt.TxType attempt = txType /\
  TxAttempt.ChainSpecificFeeLimit attempt = gasLimit /\
  ((txType = 0 /\
    TxAttempt.TxFee attempt = EvmFee.mk (EvmFee.Legacy fee) None None) \/
   (txType = 2 /\
    TxAttempt.TxFee attempt =
    EvmFee.mk None (EvmFee.DynamicFeeCap fee) (EvmFee.DynamicTipCap fee))).
Proof.
  intros Hrun.
  destruct (NewCustomTxAttempt_branches World answer c etx fee gasLimit txType
              lggr w) as [[_ [e' Hmismatch]] | [[-> Hprice] | [-> Hvalid]]].
  - rewrite Hmismatch in Hrun. discriminate Hrun.
  - rewrite run_NewCustomTxAttempt_legacy in Hrun by exact Hprice.
    destruct (newLegacyAttempt_cases c etx (EvmFee.Legacy fee) gasLimit)
      as [[msg Hp] | [[e' Hp] | [Hok [sequence Hseq]]]];
      [rewrite Hp in Hrun; discriminate Hrun .. |].
    rewrite (run_newLegacyAttempt World answer c etx _ gasLimit sequence w
               Hok Hseq) in Hrun.
    open_signing Hrun. injection Hrun as <- <- _ _.
    repeat split. left. split; reflexivity.
  - rewrite run_NewCustomTxAttempt_dynamic in Hrun by exact Hvalid.
    destruct (newDynamicFeeAttempt_cases c etx
                (DynamicFee.mk (EvmFee.DynamicFeeCap fee) (EvmFee.DynamicTipCap fee))
                gasLimit)
      as [[msg Hp] | [[e' Hp] | [Hok [sequence Hseq]]]];
      [rewrite Hp in Hrun; discriminate Hrun .. |].
    rewrite (run_newDynamicFeeAttempt World answer c etx _ gasLimit sequence w
               Hok Hseq) in Hrun.
    open_signing Hrun. injection Hrun as <- <- _ _.
    repeat split. right. split; reflexivity.
Qed.

End EstimatorOperations.

Section EstimatorOutcomes.

Context {imports : Imports}.
Variable World : Type.
Variable answer : forall c : call, World -> reply c * World.

(** X4. No creation operation returns a partly built attempt: whenever
    [NewCustomTxAttempt], [NewTxAttemptWithType], [NewBumpTxAttempt] or
    [NewEmptyTxAttempt] returns an error, the attempt returned with it is the
    zero attempt. *)
Theorem error_comes_with_zero_attempt (w w1 : World) (t : list call)
  (c : evmTxAttemptBuilder) (etx : Tx.t) (lggr : Logger)
  (attempt : TxAttempt.t) (e : goerror) :
  (forall fee gasLimit txType retryable,
     run answer (NewCustomTxAttempt c etx fee gasLimit txType lggr) w
       = (Returned (attempt, retryable, Some e), w1, t) ->
     attempt = TxAttempt.zero) /\
  (forall ctx txType opts fee feeLimit retryable,
     run answer (NewTxAttemptWithType c ctx etx lggr txType opts) w
       = (Returned (attempt, fee, feeLimit, retryable, Some e), w1, t) ->
     attempt = TxAttempt.zero) /\
  (forall ctx previousAttempt priorAttempts fee feeLimit retryable,
     run answer (NewBumpTxAttempt c ctx etx previousAttempt priorAttempts lggr) w
       = (Returned (attempt, fee, feeLimit, retryable, Some e), w1, t) ->
     attempt = TxAttempt.zero) /\
  (forall nonce feeLimit fee fromAddress,
     run answer (NewEmptyTxAttempt c nonce feeLimit fee fromAddress) w
       = (Returned (attempt, Some e), w1, t) ->
     attempt = TxAttempt.zero).
Proof.
  split; [| split; [| split]].
  - intros fee gasLimit txType retryable Hrun.
    exact (custom_error_zero_attempt World answer w w1 t c etx fee gasLimit
             txType lggr attempt retryable e Hrun).
  - intros ctx txType opts fee feeLimit retryable Hrun.
    destruct (answer (GetFee ctx (Tx.EncodedPayload etx) (Tx.FeeLimit etx)
                (PriceMaxKey (feeConfig c) (Tx.FromAddress etx)) opts) w)
      as [[[fee' lim'] err] w2] eqn:Hanswer.
    rewrite (run_NewTxAttemptWithType World answer c ctx etx lggr txType opts w
               fee' lim' err w2 Hanswer) in Hrun.
    cbv zeta in Hrun. destruct err as [e' |].
    + injection Hrun as <- _ _ _ _ _ _. reflexivity.
    + destruct (run answer (NewCustomTxAttempt c etx fee' lim' txType lggr) w2)
        as [[[[[a r] err] | msg] w3] t3] eqn:Hcustom;
        cbn [fst snd with_quote] in Hrun; [| discriminate Hrun].
      injection Hrun as -> _ _ _ -> _ _.
      exact (custom_error_zero_attempt World answer w2 w3 t3 c etx fee' lim'
               txType lggr attempt r e Hcustom).
  - intros ctx previousAttempt priorAttempts fee feeLimit retryable Hrun.
    destruct (answer (BumpFee ctx (TxAttempt.TxFee previousAttempt)
                (Tx.FeeLimit etx) (PriceMaxKey (feeConfig c) (Tx.FromAddress etx))
                (newEvmPriorAttempts priorAttempts)) w)
      as [[[fee' lim'] err] w2] eqn:Hanswer.
    rewrite (run_NewBumpTxAttempt World answer c ctx etx previousAttempt
               priorAttempts lggr w fee' lim' err w2 Hanswer) in Hrun.
    cbv zeta in Hrun. destruct err as [e' |].
    + injection Hrun as <- _ _ _ _ _ _. reflexivity.
    + destruct (run answer (NewCustomTxAttempt c etx fee' lim'
                  (TxAttempt.TxType previousAttempt) lggr) w2)
        as [[[[[a r] err] | msg] w3] t3] eqn:Hcustom;
        cbn [fst snd with_quote] in Hrun; [| discriminate Hrun].
      injection Hrun as -> _ _ _ -> _ _.
      exact (custom_error_zero_attempt World answer w2 w3 t3 c etx fee' lim'
               _ lggr attempt r e Hcustom).
  - intros nonce feeLimit fee fromAddress Hrun.
    unfold NewEmptyTxAttempt in Hrun.
    destruct (EvmFee.Legacy fee) as [price |].
    + rewrite run_bind, run_SignTx in Hrun. open_signing Hrun;
        cbn [run] in Hrun; injection Hrun as <- _ _ _; reflexivity.
    + cbn [run] in Hrun. injection Hrun as <- _ _ _. reflexivity.
Qed.

(** X12. [NewTxAttemptWithType] first asks the estimator for a quote, with
    the payload and the fee limit of the intent, the price ceiling of the
    source address and the options of the caller; no later call reaches the
    estimator.  When the quote comes without error, the result is the one of
    custom construction at the requested type with the fee and the limit the
    estimator returned (not the fee limit of the intent), which are also
    returned. *)
Theorem NewTxAttemptWithType_quotes_then_constructs (w : World)
  (c : evmTxAttemptBuilder) (ctx : GoContext) (etx : Tx.t) (lggr : Logger)
  (txType : int) (opts : list Opt) :
  let quote :=
    GetFee ctx (Tx.EncodedPayload etx) (Tx.FeeLimit etx)
      (PriceMaxKey (feeConfig c) (Tx.FromAddress etx)) opts in
  (exists rest,
     calls answer (NewTxAttemptWithType c ctx etx lggr txType opts) w
     = quote :: rest /\
     Forall (fun c' => is_estimator_call c' = false) rest) /\
  (forall fee feeLimit w1,
     answer quote w = ((fee, feeLimit, None), w1) ->
     run answer (NewTxAttemptWithType c ctx etx lggr txType opts) w =
     let '(o, w2, t) :=
       run answer (NewCustomTxAttempt c etx fee feeLimit txType lggr) w1 in
     (with_quote fee feeLimit o, w2, quote :: t)).
Proof.
  intros quote. split.
  - destruct (answer quote w) as [[[fee lim] err] w1] eqn:Hanswer.
    unfold calls.
    rewrite (run_NewTxAttemptWithType World answer c ctx etx lggr txType opts w
               fee lim err w1 Hanswer).
    cbv zeta. fold quote. destruct err as [e |]; cbn [snd].
    + exists []. split; [reflexivity | constructor].
    + eexists. split; [reflexivity |].
      apply (only_calls_run World answer), NewCustomTxAttempt_calls.
  - intros fee feeLimit w1 Hanswer.
    rewrite (run_NewTxAttemptWithType World answer c ctx etx lggr txType opts w
               fee feeLimit None w1 Hanswer).
    cbv zeta. fold quote.
    destruct (run answer (NewCustomTxAttempt c etx fee feeLimit txType lggr) w1)
      as [[o w2] t].
    reflexivity.
Qed.

(** X13. When the estimator's quote does not fit the type the configuration
    selects, [NewTxAttempt] fails for good: with dynamic fees enabled and a
    quote that is not a valid dynamic quote, or with dynamic fees disabled and
    a quote without legacy price, it returns the zero attempt, the quote as
    received, the retryable flag false and an error; after the estimator the
    only call reports the error to the logger, and nothing is signed. *)
Theorem NewTxAttempt_quote_of_wrong_kind (w w1 : World)
  (c : evmTxAttemptBuilder) (ctx : GoContext) (etx : Tx.t) (lggr : Logger)
  (opts : list Opt) (fee : EvmFee.t) (feeLimit : uint32)
  (Hquote :
     answer (GetFee ctx (Tx.EncodedPayload etx) (Tx.FeeLimit etx)
               (PriceMaxKey (feeConfig c) (Tx.FromAddress etx)) opts) w
     = ((fee, feeLimit, None), w1))
  (Hkind :
     (EIP1559DynamicFees (feeConfig c) = true /\ ValidDynamic fee = false) \/
     (EIP1559DynamicFees (feeConfig c) = false /\ EvmFee.Legacy fee = None)) :
  exists e,
    run answer (NewTxAttempt c ctx etx lggr opts) w =
    (Returned (TxAttempt.zero, fee, feeLimit, false, Some e),
     snd (answer (AssumptionViolation lggr e) w1),
     [GetFee ctx (Tx.EncodedPayload etx) (Tx.FeeLimit etx)
        (PriceMaxKey (feeConfig c) (Tx.FromAddress etx)) opts;
      AssumptionViolation lggr e]).
Proof.
  unfold NewTxAttempt.
  destruct Hkind as [[Hflag Hinvalid] | [Hflag Hnil]]; rewrite Hflag.
  - rewrite (run_NewTxAttemptWithType World answer c ctx etx lggr 2 opts w
               fee feeLimit None w1 Hquote).
    cbv zeta.
    destruct (NewCustomTxAttempt_branches World answer c etx fee feeLimit 2
                lggr w1) as [[_ [e Hmismatch]] | [[H0 Hprice] | [H2 Hvalid]]].
    + exists e. rewrite Hmismatch. reflexivity.
    + discriminate H0.
    + congruence.
  - rewrite (run_NewTxAttemptWithType World answer c ctx etx lggr 0 opts w
               fee feeLimit None w1 Hquote).
    cbv zeta.
    destruct (NewCustomTxAttempt_branches World answer c etx fee feeLimit 0
                lggr w1) as [[_ [e Hmismatch]] | [[H0 Hprice] | [H2 Hvalid]]].
    + exists e. rewrite Hmismatch. reflexivity.
    + contradiction.
    + discriminate H2.
Qed.

(** X14. A bump never changes the kind of transaction: an attempt that
    [NewBumpTxAttempt] returns without error has the type of the previous
    attempt, which is 0 or 2, carries the bumped fee in the fields of that
    type, has the bumped fee limit as its limit, and comes with the retryable
    flag true; the fee and limit returned beside it are those the estimator
    gave. *)
Theorem NewBumpTxAttempt_keeps_type (w w2 : World) (t : list call)
  (c : evmTxAttemptBuilder) (ctx : GoContext) (etx : Tx.t)
  (previousAttempt : TxAttempt.t) (priorAttempts : list TxAttempt.t)
  (lggr : Logger) (attempt : TxAttempt.t) (bumpedFee : EvmFee.t)
  (bumpedFeeLimit : uint32) (retryable : bool)
  (Hrun : run answer
            (NewBumpTxAttempt c ctx etx previousAttempt priorAttempts lggr) w
          = (Returned (attempt, bumpedFee, bumpedFeeLimit, retryable, None),
             w2, t)) :
  fst (answer (BumpFee ctx (TxAttempt.TxFee previousAttempt) (Tx.FeeLimit etx)
                 (PriceMaxKey (feeConfig c) (Tx.FromAddress etx))
                 (newEvmPriorAttempts priorAttempts)) w)
    = (bumpedFee, bumpedFeeLimit, None) /\
  retryable = true /\
  TxAttempt.TxType attempt = TxAttempt.TxType previousAttempt /\
  TxAttempt.ChainSpecificFeeLimit attempt = bumpedFeeLimit /\
  ((TxAttempt.TxType previousAttempt = 0 /\
    TxAttempt.TxFee attempt = EvmFee.mk (EvmFee.Legacy bumpedFee) None None) \/
   (TxAttempt.TxType previousAttempt = 2 /\
    TxAttempt.TxFee attempt =
    EvmFee.mk None (EvmFee.DynamicFeeCap bumpedFee)
      (EvmFee.DynamicTipCap bumpedFee))).
Proof.
  destruct (answer (BumpFee ctx (TxAttempt.TxFee previousAttempt)
              (Tx.FeeLimit etx) (PriceMaxKey (feeConfig c) (Tx.FromAddress etx))
              (newEvmPriorAttempts priorAttempts)) w)
    as [[[fee' lim'] err] w1] eqn:Hanswer.
  rewrite (run_NewBumpTxAttempt World answer c ctx etx previousAttempt
             priorAttempts lggr w fee' lim' err w1 Hanswer) in Hrun.
  cbv zeta in Hrun. destruct err as [e' |]; [discriminate Hrun |].
  destruct (run answer (NewCustomTxAttempt c etx fee' lim'
              (TxAttempt.TxType previousAttempt) lggr) w1)
    as [[[[[a r] err] | msg] w3] t3] eqn:Hcustom;
    cbn [fst snd with_quote] in Hrun; [| discriminate Hrun].
  injection Hrun as -> -> -> -> -> _ _.
  split; [reflexivity |].
  exact (custom_success_fields World answer w1 w3 t3 c etx bumpedFee
           bumpedFeeLimit _ lggr attempt retryable Hcustom).
Qed.

End EstimatorOutcomes.

(** ** The further properties in the concrete setting *)


Lemma error_comes_with_zero_attempt_witness :
  run Sample.answer
    (NewCustomTxAttempt (imports := Sample.imports) (Sample.builder 50)
       Sample.etx (Sample.legacy 100) 21000 0 9) 0%nat
  = (Returned (TxAttempt.zero, true,
               Some (errors_Wrap Sample.price_above_ceiling "error validating gas")),
     0%nat, []) /\
  TxAttempt.zero = TxAttempt.zero.
Proof.
  assert (Hrun :
    run Sample.answer
      (NewCustomTxAttempt (imports := Sample.imports) (Sample.builder 50)
         Sample.etx (Sample.legacy 100) 21000 0 9) 0%nat
    = (Returned (TxAttempt.zero, true,
                 Some (errors_Wrap Sample.price_above_ceiling
                         "error validating gas")),
       0%nat, [])) by reflexivity.
  split; [exact Hrun |].
  exact (proj1 (error_comes_with_zero_attempt (imports := Sample.imports)
                  Sample.World Sample.answer 0%nat 0%nat [] (Sample.builder 50)
                  Sample.etx 9 TxAttempt.zero
                  (errors_Wrap Sample.price_above_ceiling "error validating gas"))
           (Sample.legacy 100) 21000 0 true Hrun).
Defined.

Lemma NewCustomTxAttempt_fatal_only_on_mismatch_witness :
  run Sample.answer
    (NewCustomTxAttempt (imports := Sample.imports) (Sample.builder 1000)
       Sample.etx (Sample.legacy 100) 21000 2 9) 0%nat
  = (Returned (TxAttempt.zero, false, Some Sample.not_dynamic), 1%nat,
     [AssumptionViolation 9 Sample.not_dynamic]) /\
  ((2 = 0 /\ EvmFee.Legacy (Sample.legacy 100) = None) \/
   (2 = 2 /\ ValidDynamic (Imports := Sample.imports) (Sample.legacy 100) = false) \/
   (2 <> 0 /\ 2 <> 2)) /\
  exists e,
    Some Sample.not_dynamic = Some e /\
    [AssumptionViolation 9 Sample.not_dynamic] = [AssumptionViolation 9 e].
Proof.
  assert (Hrun :
    run Sample.answer
      (NewCustomTxAttempt (imports := Sample.imports) (Sample.builder 1000)
         Sample.etx (Sample.legacy 100) 21000 2 9) 0%nat
    = (Returned (TxAttempt.zero, false, Some Sample.not_dynamic), 1%nat,
       [AssumptionViolation 9 Sample.not_dynamic])) by reflexivity.
  split; [exact Hrun |].
  exact (NewCustomTxAttempt_fatal_only_on_mismatch (imports := Sample.imports)
           Sample.World Sample.answer 0%nat 1%nat _ (Sample.builder 1000)
           Sample.etx (Sample.legacy 100) 21000 2 9 TxAttempt.zero
           (Some Sample.not_dynamic) Hrun).
Defined.

Lemma NewCustomTxAttempt_success_within_bounds_witness :
  run Sample.answer
    (NewCustomTxAttempt (imports := Sample.imports) (Sample.builder 1000)
       Sample.etx (Sample.dynamic 10 10) 21000 2 9) 0%nat
  = (Returned (Sample.dynamic_attempt, true, None), 1%nat,
     calls Sample.answer
       (NewCustomTxAttempt (imports := Sample.imports) (Sample.builder 1000)
          Sample.etx (Sample.dynamic 10 10) 21000 2 9) 0%nat) /\
  TxAttempt.TxType Sample.dynamic_attempt = 2.
Proof.
  assert (Hrun :
    run Sample.answer
      (NewCustomTxAttempt (imports := Sample.imports) (Sample.builder 1000)
         Sample.etx (Sample.dynamic 10 10) 21000 2 9) 0%nat
    = (Returned (Sample.dynamic_attempt, true, None), 1%nat,
       calls Sample.answer
         (NewCustomTxAttempt (imports := Sample.imports) (Sample.builder 1000)
            Sample.etx (Sample.dynamic 10 10) 21000 2 9) 0%nat)) by reflexivity.
  split; [exact Hrun |].
  exact (proj1 (proj2
           (NewCustomTxAttempt_success_within_bounds (imports := Sample.imports)
              Sample.World Sample.answer 0%nat 1%nat _ (Sample.builder 1000)
              Sample.etx (Sample.dynamic 10 10) 21000 2 9 Sample.dynamic_attempt
              true Hrun))).
Defined.

Lemma NewCustomTxAttempt_success_signed_once_witness :
  run Sample.answer
    (NewCustomTxAttempt (imports := Sample.imports) (Sample.builder 1000)
       Sample.etx (Sample.legacy 100) 21000 0 9) 0%nat
  = (Returned (Sample.legacy_attempt, true, None), 1%nat,
     calls Sample.answer
       (NewCustomTxAttempt (imports := Sample.imports) (Sample.builder 1000)
          Sample.etx (Sample.legacy 100) 21000 0 9) 0%nat) /\
  exists tx signedTx,
    calls Sample.answer
      (NewCustomTxAttempt (imports := Sample.imports) (Sample.builder 1000)
         Sample.etx (Sample.legacy 100) 21000 0 9) 0%nat
    = [KeystoreSignTx 17 tx (Some 1)] /\
    EncodeRLP (Imports := Sample.imports) signedTx = ([0; 5; 21000], None).
Proof.
  assert (Hrun :
    run Sample.answer
      (NewCustomTxAttempt (imports := Sample.imports) (Sample.builder 1000)
         Sample.etx (Sample.legacy 100) 21000 0 9) 0%nat
    = (Returned (Sample.legacy_attempt, true, None), 1%nat,
       calls Sample.answer
         (NewCustomTxAttempt (imports := Sample.imports) (Sample.builder 1000)
            Sample.etx (Sample.legacy 100) 21000 0 9) 0%nat)) by reflexivity.
  split; [exact Hrun |].
  destruct (NewCustomTxAttempt_success_signed_once (imports := Sample.imports)
              Sample.World Sample.answer 0%nat 1%nat _ (Sample.builder 1000)
              Sample.etx (Sample.legacy 100) 21000 0 9 Sample.legacy_attempt
              true Hrun)
    as (tx & signedTx & Hcalls & _ & Hrlp & _).
  exists tx, signedTx. split; [exact Hcalls | exact Hrlp].
Defined.

Lemma newLegacyAttempt_signs_the_intent_witness :
  (validateLegacyGas (as_keySpecificEstimator (feeConfig (Sample.builder 1000)))
     (PriceMin (feeConfig (Sample.builder 1000))) (Some 100) 21000 Sample.etx
   = Return None /\
   Tx.Sequence Sample.etx = Some 5) /\
  calls Sample.answer
    (newLegacyAttempt (imports := Sample.imports) (Sample.builder 1000)
       Sample.etx (Some 100) 21000) 0%nat =
  [KeystoreSignTx 17
     {| inner := LegacyTxData
          {| LegacyTx.Nonce := 5 mod 2 ^ 64;
             LegacyTx.To := Some 170;
             LegacyTx.Value := Some 0;
             LegacyTx.Gas := 21000;
             LegacyTx.GasPrice := Some 100;
             LegacyTx.Data := [] |};
        signature := (0, 0, 0) |}
     (Some 1)].
Proof.
  split; [split; reflexivity |].
  exact (newLegacyAttempt_signs_the_intent (imports := Sample.imports)
           Sample.World Sample.answer 0%nat (Sample.builder 1000) Sample.etx
           (Some 100) 21000 5 eq_refl eq_refl).
Defined.

Lemma newDynamicFeeAttempt_signs_the_intent_witness :
  (validateDynamicFeeGas (as_keySpecificEstimator (feeConfig (Sample.builder 1000)))
     (TipCapMin (feeConfig (Sample.builder 1000)))
     (DynamicFee.mk (Some 30) (Some 2)) 21000 Sample.etx
   = Return None /\
   Tx.Sequence Sample.etx = Some 5) /\
  calls Sample.answer
    (newDynamicFeeAttempt (imports := Sample.imports) (Sample.builder 1000)
       Sample.etx (DynamicFee.mk (Some 30) (Some 2)) 21000) 0%nat =
  [KeystoreSignTx 17
     {| inner := DynamicFeeTxData
          {| DynamicFeeTx.ChainID := Some 1;
             DynamicFeeTx.Nonce := 5 mod 2 ^ 64;
             DynamicFeeTx.GasTipCap := Some 2;
             DynamicFeeTx.GasFeeCap := Some 30;
             DynamicFeeTx.Gas := 21000;
             DynamicFeeTx.To := Some 170;
             DynamicFeeTx.Value := Some 0;
             DynamicFeeTx.Data := [] |};
        signature := (0, 0, 0) |}
     (Some 1)].
Proof.
  split; [split; reflexivity |].
  exact (newDynamicFeeAttempt_signs_the_intent (imports := Sample.imports)
           Sample.World Sample.answer 0%nat (Sample.builder 1000) Sample.etx
           (DynamicFee.mk (Some 30) (Some 2)) 21000 5 eq_refl eq_refl).
Defined.

Lemma NewCustomTxAttempt_without_sequence_witness :
  ((0 = 0 /\
    validateLegacyGas (as_keySpecificEstimator (feeConfig (Sample.builder 1000)))
      (PriceMin (feeConfig (Sample.builder 1000)))
      (EvmFee.Legacy (Sample.legacy 100)) 21000 Sample.etx_unsequenced
    = Return None) /\
   Tx.Sequence Sample.etx_unsequenced = None) /\
  run Sample.answer
    (NewCustomTxAttempt (imports := Sample.imports) (Sample.builder 1000)
       Sample.etx_unsequenced (Sample.legacy 100) 21000 0 9) 0%nat
  = (Panicked nil_dereference, 0%nat, []).
Proof.
  assert (Hvalid :
    0 = 0 /\
    validateLegacyGas (as_keySpecificEstimator (feeConfig (Sample.builder 1000)))
      (PriceMin (feeConfig (Sample.builder 1000)))
      (EvmFee.Legacy (Sample.legacy 100)) 21000 Sample.etx_unsequenced
    = Return None) by (split; reflexivity).
  split; [split; [exact Hvalid | reflexivity] |].
  exact (NewCustomTxAttempt_without_sequence (imports := Sample.imports)
           Sample.World Sample.answer 0%nat (Sample.builder 1000)
           Sample.etx_unsequenced (Sample.legacy 100) 21000 0 9
           (or_introl Hvalid) eq_refl).
Defined.

Lemma NewEmptyTxAttempt_signs_transfer_to_self_witness :
  EvmFee.Legacy (Sample.legacy 5000) = Some 5000 /\
  calls Sample.answer
    (NewEmptyTxAttempt (imports := Sample.imports) (Sample.builder 1000) 5 21000
       (Sample.legacy 5000) 17) 0%nat =
  [KeystoreSignTx 17
     {| inner := LegacyTxData
          {| LegacyTx.Nonce := 5 mod 2 ^ 64;
             LegacyTx.To := Some 17;
             LegacyTx.Value := Some 0;
             LegacyTx.Gas := 21000;
             LegacyTx.GasPrice := Some 5000;
             LegacyTx.Data := [] |};
        signature := (0, 0, 0) |}
     (Some 1)].
Proof.
  split; [reflexivity |].
  exact (NewEmptyTxAttempt_signs_transfer_to_self (imports := Sample.imports)
           Sample.World Sample.answer 0%nat (Sample.builder 1000) 5 21000
           (Sample.legacy 5000) 17 5000 eq_refl).
Defined.

Lemma NewTxAttemptWithType_quotes_then_constructs_witness :
  Sample.answer
    (GetFee 0 (Tx.EncodedPayload Sample.etx) (Tx.FeeLimit Sample.etx)
       (PriceMaxKey (feeConfig (Sample.builder 1000)) (Tx.FromAddress Sample.etx))
       []) 0%nat
  = ((Sample.legacy 100, 21000, None), 1%nat) /\
  run Sample.answer
    (NewTxAttemptWithType (imports := Sample.imports) (Sample.builder 1000) 0
       Sample.etx 9 0 []) 0%nat =
  let '(o, w2, t) :=
    run Sample.answer
      (NewCustomTxAttempt (imports := Sample.imports) (Sample.builder 1000)
         Sample.etx (Sample.legacy 100) 21000 0 9) 1%nat in
  (with_quote (Sample.legacy 100) 21000 o, w2,
   GetFee 0 (Tx.EncodedPayload Sample.etx) (Tx.FeeLimit Sample.etx)
     (PriceMaxKey (feeConfig (Sample.builder 1000)) (Tx.FromAddress Sample.etx))
     [] :: t).
Proof.
  split; [reflexivity |].
  apply (NewTxAttemptWithType_quotes_then_constructs (imports := Sample.imports)
           Sample.World Sample.answer 0%nat (Sample.builder 1000) 0 Sample.etx 9
           0 []).
  reflexivity.
Defined.

Lemma NewTxAttempt_quote_of_wrong_kind_witness :
  (Sample.answer
     (GetFee 0 (Tx.EncodedPayload Sample.etx) (Tx.FeeLimit Sample.etx)
        (PriceMaxKey (feeConfig (Sample.dynamic_builder 1000))
           (Tx.FromAddress Sample.etx)) []) 0%nat
   = ((Sample.legacy 100, 21000, None), 1%nat) /\
   ((EIP1559DynamicFees (feeConfig (Sample.dynamic_builder 1000)) = true /\
     ValidDynamic (Imports := Sample.imports) (Sample.legacy 100) = false) \/
    (EIP1559DynamicFees (feeConfig (Sample.dynamic_builder 1000)) = false /\
     EvmFee.Legacy (Sample.legacy 100) = None))) /\
  exists e,
    run Sample.answer
      (NewTxAttempt (imports := Sample.imports) (Sample.dynamic_builder 1000) 0
         Sample.etx 9 []) 0%nat =
    (Returned (TxAttempt.zero, Sample.legacy 100, 21000, false, Some e),
     snd (Sample.answer (AssumptionViolation 9 e) 1%nat),
     [GetFee 0 (Tx.EncodedPayload Sample.etx) (Tx.FeeLimit Sample.etx)
        (PriceMaxKey (feeConfig (Sample.dynamic_builder 1000))
           (Tx.FromAddress Sample.etx)) [];
      AssumptionViolation 9 e]).
Proof.
  assert (Hkind :
    (EIP1559DynamicFees (feeConfig (Sample.dynamic_builder 1000)) = true /\
     ValidDynamic (Imports := Sample.imports) (Sample.legacy 100) = false) \/
    (EIP1559DynamicFees (feeConfig (Sample.dynamic_builder 1000)) = false /\
     EvmFee.Legacy (Sample.legacy 100) = None))
    by (left; split; reflexivity).
  split; [split; [reflexivity | exact Hkind] |].
  exact (NewTxAttempt_quote_of_wrong_kind (imports := Sample.imports)
           Sample.World Sample.answer 0%nat 1%nat (Sample.dynamic_builder 1000) 0
           Sample.etx 9 [] (Sample.legacy 100) 21000 eq_refl Hkind).
Defined.

Lemma NewBumpTxAttempt_keeps_type_witness :
  run Sample.answer
    (NewBumpTxAttempt (imports := Sample.imports) (Sample.builder 1000) 0
       Sample.etx Sample.previous [Sample.previous] 9) 0%nat
  = (Returned (TxAttempt.with_TxFee (Sample.legacy 110) Sample.legacy_attempt,
               Sample.legacy 110, 21000, true, None), 2%nat,
     calls Sample.answer
       (NewBumpTxAttempt (imports := Sample.imports) (Sample.builder 1000) 0
          Sample.etx Sample.previous [Sample.previous] 9) 0%nat) /\
  TxAttempt.TxType (TxAttempt.with_TxFee (Sample.legacy 110) Sample.legacy_attempt)
  = TxAttempt.TxType Sample.previous.
Proof.
  assert (Hrun :
    run Sample.answer
      (NewBumpTxAttempt (imports := Sample.imports) (Sample.builder 1000) 0
         Sample.etx Sample.previous [Sample.previous] 9) 0%nat
    = (Returned (TxAttempt.with_TxFee (Sample.legacy 110) Sample.legacy_attempt,
                 Sample.legacy 110, 21000, true, None), 2%nat,
       calls Sample.answer
         (NewBumpTxAttempt (imports := Sample.imports) (Sample.builder 1000) 0
            Sample.etx Sample.previous [Sample.previous] 9) 0%nat))
    by reflexivity.
  split; [exact Hrun |].
  exact (proj1 (proj2 (proj2
           (NewBumpTxAttempt_keeps_type (imports := Sample.imports)
              Sample.World Sample.answer 0%nat 2%nat _ (Sample.builder 1000) 0
              Sample.etx Sample.previous [Sample.previous] 9 _ _ _ _ Hrun)))).
Defined.

(** * The Mercury plugin configuration *)

Module mercury_facts.

Import mercury.

Lemma strip_prefix_Some (p s r : string) :
  strip_prefix p s = Some r <-> s = String.append p r.
Proof.
  revert s. induction p as [| a p IH]; intros s; cbn.
  - split; [intros [= ->]; reflexivity | intros ->; reflexivity].
  - destruct s as [| b s]; [split; discriminate |].
    destruct (Ascii.eqb_spec a b) as [-> | Hne].
    + rewrite IH. split; [intros ->; reflexivity | intros [= ->]; reflexivity].
    + split; [discriminate | intros [= Hab _]; congruence].
Qed.

Lemma strip_prefix_append (p r : string) :
  strip_prefix p (String.append p r) = Some r.
Proof. apply strip_prefix_Some. reflexivity. Qed.

(** A string is its longest prefix of scheme characters followed by what
    [skip_scheme_chars] leaves. *)
Lemma skip_scheme_chars_split (s : string) :
  exists run,
    s = String.append run (skip_scheme_chars s) /\ all_scheme_chars run = true.
Proof.
  induction s as [| c s (run & Hs & Hrun)]; cbn.
  - exists EmptyString. auto.
  - destruct (is_scheme_char c) eqn:Hc.
    + exists (String c run). cbn. rewrite Hc, Hrun, <- Hs. auto.
    + exists EmptyString. auto.
Qed.

Lemma skip_scheme_chars_run (run rest : string) :
  all_scheme_chars run = true ->
  skip_scheme_chars (String.append run (String.append "://" rest))
  = String.append "://" rest.
Proof.
  induction run as [| c run IH]; cbn.
  - reflexivity.
  - destruct (is_scheme_char c); [exact IH | discriminate].
Qed.

(** X18. [schemeRegexp] matches exactly the strings that start with a
    letter, continue with any number of letters, digits, plus signs, dots or
    hyphens, and then have a colon and two slashes; what follows is free. *)
Theorem schemeRegexp_language (s : string) :
  schemeRegexp_MatchString s = true <->
  exists c run rest,
    s = String c (String.append run (String.append "://" rest)) /\
    is_letter c = true /\
    all_scheme_chars run = true.
Proof.
  split.
  - destruct s as [| c r]; [discriminate |]. cbn [schemeRegexp_MatchString].
    destruct (is_letter c) eqn:Hc; [| discriminate]. cbn [andb].
    destruct (strip_prefix "://" (skip_scheme_chars r)) as [rest |] eqn:Hrest;
      [| discriminate].
    intros _. apply strip_prefix_Some in Hrest.
    destruct (skip_scheme_chars_split r) as (run & Hr & Hrun).
    exists c, run, rest. rewrite Hrest in Hr. rewrite <- Hr. auto.
  - intros (c & run & rest & -> & Hc & Hrun). cbn [schemeRegexp_MatchString].
    rewrite Hc, (skip_scheme_chars_run run rest Hrun), strip_prefix_append.
    reflexivity.
Qed.

(** X17. For a server URL that starts with wss:// or has no scheme at all,
    the URI that [Validate] parses is wss:// followed by what [ServerURL]
    returns. *)
Theorem normalizedURI_is_wss_ServerURL (p : PluginConfig)
  (Hscheme : strip_prefix "wss://" (RawServerURL p) <> None \/
             schemeRegexp_MatchString (RawServerURL p) = false) :
  normalizedURI (RawServerURL p) = String.append "wss://" (ServerURL p).
Proof.
  unfold normalizedURI, ServerURL, wssRegexp_remove.
  destruct (strip_prefix "wss://" (RawServerURL p)) as [r |] eqn:Hwss.
  - apply strip_prefix_Some in Hwss. rewrite Hwss.
    assert (Hmatch : schemeRegexp_MatchString (String.append "wss://" r) = true)
      by reflexivity.
    rewrite Hmatch. reflexivity.
  - destruct Hscheme as [Hwss' | Hnone]; [contradiction |].
    rewrite Hnone. reflexivity.
Qed.

Lemma normalizedURI_is_wss_ServerURL_witness :
  (strip_prefix "wss://" (RawServerURL (mkPluginConfig "example.com:4242" [])) <> None \/
   schemeRegexp_MatchString (RawServerURL (mkPluginConfig "example.com:4242" []))
   = false) /\
  normalizedURI (RawServerURL (mkPluginConfig "example.com:4242" []))
  = String.append "wss://" (ServerURL (mkPluginConfig "example.com:4242" [])).
Proof.
  assert (Hscheme :
    strip_prefix "wss://" (RawServerURL (mkPluginConfig "example.com:4242" []))
      <> None \/
    schemeRegexp_MatchString (RawServerURL (mkPluginConfig "example.com:4242" []))
    = false) by (right; reflexivity).
  split; [exact Hscheme |].
  exact (normalizedURI_is_wss_ServerURL (mkPluginConfig "example.com:4242" [])
           Hscheme).
Defined.

Section Validation.

Variable ParseRequestURI : string -> option URL * error.

(** X15. [Validate] returns no error exactly when the server URL is not
    empty, the parser accepts the normalized URI and reports the scheme wss,
    and the server public key has 32 bytes. *)
Theorem Validate_accepts_iff (p : PluginConfig) :
  Validate ParseRequestURI p = Return None <->
  RawServerURL p <> "" /\
  (exists uri,
     ParseRequestURI (normalizedURI (RawServerURL p)) = (Some uri, None) /\
     Scheme uri = "wss") /\
  List.length (ServerPubKey p) = 32%nat.
Proof.
  unfold Validate.
  destruct (String.eqb_spec (RawServerURL p) "") as [Hempty | Hurl].
  - cbn [bind].
    split; [| intros [Hurl _]; contradiction].
    destruct (Nat.eqb (List.length (ServerPubKey p)) 32); discriminate.
  - destruct (ParseRequestURI (normalizedURI (RawServerURL p)))
      as [uri [e |]].
    + cbn [bind].
      split; [| intros (_ & (uri' & [= _ Herr] & _) & _)].
      destruct (Nat.eqb (List.length (ServerPubKey p)) 32); discriminate.
    + destruct uri as [uri |]; cbn [deref bind].
      * destruct (String.eqb_spec (Scheme uri) "wss") as [Hwss | Hother];
          cbn [negb bind].
        -- destruct (Nat.eqb_spec (List.length (ServerPubKey p)) 32)
             as [Hlen | Hlen]; cbn [negb].
           ++ split; [intros _ | reflexivity].
              split; [exact Hurl |]. split; [| exact Hlen].
              exists uri. auto.
           ++ split; [discriminate | intros (_ & _ & Hlen'); contradiction].
        -- split; [| intros (_ & (uri' & [= <-] & Hwss) & _); contradiction].
           destruct (Nat.eqb (List.length (ServerPubKey p)) 32); discriminate.
      * split; [discriminate | intros (_ & (uri' & [=] & _) & _)].
Qed.


End Validation.


End mercury_facts.
